(** * Product API (server.js): a shallow embedding of the Express application

    The program is one Express application over an in-memory array of
    product objects.  This development embeds

    - the JavaScript values the handlers manipulate (JSON bodies, query
      values, product objects),
    - the built-ins the handlers call ([find], [findIndex], [filter],
      [slice], [parseInt], [toLowerCase], [includes], object spread),
    - every middleware and handler of server.js, as a function from the
      request and the state to a new state and an outcome,
    - the Express router: the layers of the application in registration
      order, and the dispatch loop that runs the first matching layer.

    Scope of the model.  Numbers are the integers (JSON numbers with a
    fraction, and precision loss beyond 2^53, are not represented);
    [toLowerCase] folds the ASCII letters only; a request carries the body
    that [bodyParser.json()] left in [req.body] (an array body is the object
    of its indices, which is how destructuring and spread treat it) and the
    path already split into decoded segments; the verbs are the four the
    program registers. *)

From stdpp Require Import gmap strings list fin_maps pretty.
From Stdlib Require Import ZArith Ascii.

#[local] Set Warnings "-register-all".
#[local] Open Scope string_scope.
#[local] Open Scope Z_scope.
#[local] Open Scope list_scope.

(** ** JavaScript values *)

Inductive value :=
| VUndefined
| VNull
| VBool (b : bool)
| VNum (z : Z)
| VNaN
| VStr (s : string)
| VArr (l : list value)
| VObj (m : gmap string value).

(** [!v] is [negb (truthy v)]. *)
Definition truthy (v : value) : bool :=
  match v with
  | VUndefined | VNull | VNaN => false
  | VBool b => b
  | VNum z => negb (z =? 0)
  | VStr s => negb (String.eqb s "")
  | VArr _ | VObj _ => true
  end.

Definition typeof (v : value) : string :=
  match v with
  | VUndefined => "undefined"
  | VBool _ => "boolean"
  | VNum _ | VNaN => "number"
  | VStr _ => "string"
  | VNull | VArr _ | VObj _ => "object"
  end.

(** [a === b].  Arrays and objects compare by reference; every comparison
    in server.js has one operand read from a stored product and the other
    read from the request, which are never the same allocation. *)
Definition strict_eq (a b : value) : bool :=
  match a, b with
  | VUndefined, VUndefined | VNull, VNull => true
  | VBool x, VBool y => Bool.eqb x y
  | VNum x, VNum y => x =? y
  | VStr x, VStr y => String.eqb x y
  | _, _ => false
  end.

(** [String(v)]: the conversion behind [parseInt(v)] and behind a computed
    property key [o[v]].  Two limits: a number is printed in full, as
    JavaScript does below 10^21 only (from there on it prints an
    exponent); an object is printed as ["[object Object]"], as JavaScript
    does for an object without a [toString] or [valueOf] property of its
    own (with one that is not a function the conversion throws).  The
    properties that depend on this conversion assume strings. *)
Fixpoint to_string (v : value) : string :=
  match v with
  | VUndefined => "undefined"
  | VNull => "null"
  | VBool true => "true"
  | VBool false => "false"
  | VNum z => pretty z
  | VNaN => "NaN"
  | VStr s => s
  | VArr l =>
      let element x :=
        match x with VUndefined | VNull => "" | _ => to_string x end in
      (fix join (xs : list value) : string :=
         match xs with
         | [] => ""
         | [x] => element x
         | x :: xs' => element x +:+ "," +:+ join xs'
         end) l
  | VObj _ => "[object Object]"
  end.

(** Property read [o.k]: [undefined] when the object has no such property. *)
Definition get (o : gmap string value) (k : string) : value :=
  default VUndefined (o !! k).

(** Object literal [{ k1: v1, ..., kn: vn }]: later keys win. *)
Definition object_of (kvs : list (string * value)) : gmap string value :=
  foldl (λ o kv, <[kv.1 := kv.2]> o) ∅ kvs.

(** Spread [{ ...a, ...b }]: the properties of [b] override those of [a]. *)
Definition spread (a b : gmap string value) : gmap string value := b ∪ a.

(** ** String built-ins *)

(** [toLowerCase] on ASCII: the letters A to Z are folded, every other
    byte is kept.  On a string with characters outside ASCII, JavaScript
    folds more; see [is_ascii]. *)
Definition lower_ascii (c : ascii) : ascii :=
  let n := nat_of_ascii c in
  if ((65 <=? n) && (n <=? 90))%nat then ascii_of_nat (n + 32) else c.

Fixpoint toLowerCase (s : string) : string :=
  match s with
  | EmptyString => EmptyString
  | String c s' => String (lower_ascii c) (toLowerCase s')
  end.

(** [s.includes(sub)] *)
Fixpoint includes (s sub : string) : bool :=
  if String.prefix sub s then true
  else match s with
       | EmptyString => false
       | String _ s' => includes s' sub
       end.

(** ** parseInt *)

Definition is_whitespace (c : ascii) : bool :=
  match nat_of_ascii c with
  | 9 | 10 | 11 | 12 | 13 | 32 => true
  | _ => false
  end%nat.

Fixpoint trim_start (s : string) : string :=
  match s with
  | EmptyString => EmptyString
  | String c s' => if is_whitespace c then trim_start s' else s
  end.

Definition digit_value (c : ascii) : option Z :=
  let n := Z.of_nat (nat_of_ascii c) in
  if (48 <=? n) && (n <=? 57) then Some (n - 48)
  else if (97 <=? n) && (n <=? 122) then Some (n - 87)
  else if (65 <=? n) && (n <=? 90) then Some (n - 55)
  else None.

(** The longest prefix of digits below [radix]; [None] when it is empty. *)
Fixpoint parse_digits (radix : Z) (s : string) (acc : option Z) : option Z :=
  match s with
  | EmptyString => acc
  | String c s' =>
      match digit_value c with
      | Some d =>
          if d <? radix
          then parse_digits radix s' (Some (default 0 acc * radix + d))
          else acc
      | None => acc
      end
  end.

(** [parseInt(v)] with no radix argument; [None] is [NaN].  Two limits:
    the result is the exact integer, where JavaScript rounds to a double
    beyond 2^53; the white space skipped is that of ASCII, where
    JavaScript also skips the Unicode spaces.  See [reads_as] and
    [is_ascii]. *)
Definition parseInt (v : value) : option Z :=
  let s := trim_start (to_string v) in
  let '(negative, s) :=
    match s with
    | String "-" r => (true, r)
    | String "+" r => (false, r)
    | _ => (false, s)
    end in
  let '(radix, s) :=
    match s with
    | String "0" (String "x" r) | String "0" (String "X" r) => (16, r)
    | _ => (10, s)
    end in
  (λ n, if negative : bool then - n else n) <$> parse_digits radix s None.

Definition number (n : option Z) : value :=
  match n with Some z => VNum z | None => VNaN end.

(** ** Array built-ins *)

Section Arrays.
Context {A : Type}.

(** [l.findIndex(f)]; [None] stands for [-1]. *)
Fixpoint findIndex (f : A → bool) (l : list A) : option nat :=
  match l with
  | [] => None
  | x :: l' => if f x then Some 0%nat else S <$> findIndex f l'
  end.

(** [l.slice(start, end)]; a [NaN] argument counts as 0, a negative one
    counts from the end. *)
Definition slice (l : list A) (start_ end_ : option Z) : list A :=
  let len := Z.of_nat (length l) in
  let clamp (x : option Z) :=
    let z := default 0 x in
    if z <? 0 then Z.max (len + z) 0 else Z.min z len in
  let k := clamp start_ in
  let final := clamp end_ in
  take (Z.to_nat (final - k)) (drop (Z.to_nat k) l).

(** [l.filter(f)] for a callback that may throw: the first exception
    aborts the traversal. *)
Fixpoint filter_throwing {E : Type} (f : A → E + bool) (l : list A)
  : E + list A :=
  match l with
  | [] => inr []
  | x :: l' =>
      match f x with
      | inl err => inl err
      | inr keep =>
          match filter_throwing f l' with
          | inl err => inl err
          | inr ys => inr (if keep then x :: ys else ys)
          end
      end
  end.
End Arrays.

(** * The Express application *)

(** ** Requests, responses, state *)

Inductive verb := GET | POST | PUT | DELETE.

Definition verb_name (m : verb) : string :=
  match m with GET => "GET" | POST => "POST" | PUT => "PUT" | DELETE => "DELETE" end.

Definition verb_eqb (a b : verb) : bool :=
  match a, b with
  | GET, GET | POST, POST | PUT, PUT | DELETE, DELETE => true
  | _, _ => false
  end.

(** The request object as the handlers read it.  [path] is [req.path] split
    at [/] into decoded segments, without the empty segment a single
    trailing slash leaves (Express routes non-strictly); [params] is filled
    in by the router for each route it enters. *)
Record request := {
  method : verb;
  path : list string;
  originalUrl : string;
  headers : gmap string string;
  query : gmap string value;
  body : gmap string value;
  params : gmap string string
}.

Definition with_params (rq : request) (ps : gmap string string) : request :=
  {| method := method rq; path := path rq; originalUrl := originalUrl rq;
     headers := headers rq; query := query rq; body := body rq;
     params := ps |}.

(** [req.params.k] *)
Definition param (rq : request) (k : string) : value :=
  from_option VStr VUndefined (params rq !! k).

(** What was written to the response.  [Json v] is [res.json(v)] with the
    value handed to it, [Send s] is [res.send(s)], [NoContent] is
    [res.send()], and [FinalHandler] is the page Express itself writes when
    no layer answers. *)
Inductive payload :=
| Send (text : string)
| Json (v : value)
| NoContent
| FinalHandler.

Record response := { status : Z; content : payload }.

(** The classes of exception the program distinguishes: its two custom
    error classes, and the [TypeError] a property access can raise. *)
Inductive error :=
| NotFoundError (message : string)
| ValidationError (message : string)
| TypeError (message : string).

(** The module-level state: the [products] array and the lines written
    with [console.log]. *)
Record state := { products : list (gmap string value); console : list string }.

Definition set_products (st : state) (ps : list (gmap string value)) : state :=
  {| products := ps; console := console st |}.

(** What the runtime supplies while one request is handled: the result of
    [uuidv4()] and of [new Date().toISOString()]. *)
Record env := { uuidv4 : string; now : string }.

(** A handler either writes the response, calls [next()], or throws. *)
Inductive outcome :=
| Responded (r : response)
| Next
| Threw (err : error).

Definition handler : Type := env → request → state → state * outcome.

Definition respond (st : state) (code : Z) (c : payload) : state * outcome :=
  (st, Responded {| status := code; content := c |}).

Definition error_body (msg : string) : value :=
  VObj (object_of [("error", VStr msg)]).

(** ** The seeded collection (server.js, lines 16-41) *)

Definition product_record (id name description : string) (price : Z)
    (category : string) (inStock : bool) : gmap string value :=
  object_of [("id", VStr id); ("name", VStr name);
             ("description", VStr description); ("price", VNum price);
             ("category", VStr category); ("inStock", VBool inStock)].

Definition seed : list (gmap string value) :=
  [ product_record "1" "Laptop" "High-performance laptop with 16GB RAM"
      1200 "electronics" true;
    product_record "2" "Smartphone" "Latest model with 128GB storage"
      800 "electronics" true;
    product_record "3" "Coffee Maker" "Programmable coffee maker with timer"
      50 "kitchen" false ].

Definition initial : state := {| products := seed; console := [] |}.

(** ** Handlers of the first registrations (lines 43-83) *)

(** [app.get('/')] *)
Definition root : handler := λ _ _ st,
  respond st 200
    (Send "Welcome to the Product API! Go to /api/products to see all products.").

(** [app.get('/api/products')], line 50 *)
Definition list_products : handler := λ _ _ st,
  respond st 200 (Json (VArr (VObj <$> products st))).

(** The callback [p => p.id === req.params.id]. *)
Definition has_id (rq : request) (p : gmap string value) : bool :=
  strict_eq (get p "id") (param rq "id").

(** [app.get('/api/products/:id')], line 55 *)
Definition get_product : handler := λ _ rq st,
  match List.find (has_id rq) (products st) with
  | None => respond st 404 (Json (error_body "Product not found"))
  | Some product => respond st 200 (Json (VObj product))
  end.

(** [app.post('/api/products')], lines 62 and 153 (the same function body) *)
Definition create_product : handler := λ e rq st,
  let b := body rq in
  let product :=
    object_of [("id", VStr (uuidv4 e)); ("name", get b "name");
               ("description", get b "description"); ("price", get b "price");
               ("category", get b "category"); ("inStock", get b "inStock")] in
  (set_products st (products st ++ [product]),
   Responded {| status := 201; content := Json (VObj product) |}).

(** [app.put('/api/products/:id')], lines 70 and 160 (the same function
    body).  [products[index]] of an index out of range would be
    [undefined], whose spread is the empty object. *)
Definition update_product : handler := λ _ rq st,
  match findIndex (has_id rq) (products st) with
  | None => respond st 404 (Json (error_body "Product not found"))
  | Some index =>
      let merged := spread (default ∅ (products st !! index)) (body rq) in
      (set_products st (<[index := merged]> (products st)),
       Responded {| status := 200; content := Json (VObj merged) |})
  end.

(** [app.delete('/api/products/:id')], line 78 *)
Definition delete_product : handler := λ _ rq st,
  match findIndex (has_id rq) (products st) with
  | None => respond st 404 (Json (error_body "Product not found"))
  | Some index =>
      (set_products st (delete index (products st)),
       Responded {| status := 204; content := NoContent |})
  end.

(** ** Middleware (lines 85-107) *)

(** [bodyParser.json()]: its result is the [body] field of the request.
    For a body that is not valid JSON the parser passes an error on
    instead, which the error-handling middleware answers; a [request]
    always has a parsed body, so such requests are outside the model. *)
Definition bodyParser_json : handler := λ _ _ st, (st, Next).

(** The logger, line 86 *)
Definition logger : handler := λ e rq st,
  ({| products := products st;
      console := console st ++
        ["[" +:+ now e +:+ "] " +:+ verb_name (method rq) +:+ " "
           +:+ originalUrl rq] |},
   Next).

Definition authenticate : handler := λ _ rq st,
  let apiKey := headers rq !! "x-api-key" in
  if bool_decide (apiKey ≠ Some "my-secret-key")
  then respond st 401 (Json (error_body "Unauthorized: Invalid API key"))
  else (st, Next).

Definition validateProduct : handler := λ _ rq st,
  let b := body rq in
  if negb (truthy (get b "name"))
     || negb (truthy (get b "description"))
     || negb (String.eqb (typeof (get b "price")) "number")
     || negb (truthy (get b "category"))
     || negb (String.eqb (typeof (get b "inStock")) "boolean")
  then respond st 400 (Json (error_body "ValidationError: Invalid product data"))
  else (st, Next).

(** ** Handlers of the later registrations (lines 125-150) *)

(** The callback
    [p => p.name.toLowerCase().includes(search.toLowerCase())]:
    [p.name.toLowerCase()] is evaluated first and throws unless [p.name] is
    a string, then [search.toLowerCase()] likewise.  The messages are
    those of V8. *)
Definition name_includes (search : value) (p : gmap string value)
  : error + bool :=
  match get p "name" with
  | VStr name =>
      match search with
      | VStr s => inr (includes (toLowerCase name) (toLowerCase s))
      | _ => inl (TypeError "search.toLowerCase is not a function")
      end
  | VUndefined =>
      inl (TypeError "Cannot read properties of undefined (reading 'toLowerCase')")
  | VNull =>
      inl (TypeError "Cannot read properties of null (reading 'toLowerCase')")
  | _ => inl (TypeError "p.name.toLowerCase is not a function")
  end.

(** A destructuring default [k = d]: used when the property is [undefined]. *)
Definition get_default (o : gmap string value) (k : string) (d : value) : value :=
  match get o k with VUndefined => d | v => v end.

(** [app.get('/api/products')], line 127 *)
Definition list_products_advanced : handler := λ _ rq st,
  let result := products st in
  let category := get (query rq) "category" in
  let page := get_default (query rq) "page" (VNum 1) in
  let limit := get_default (query rq) "limit" (VNum 10) in
  let search := get (query rq) "search" in
  let result :=
    if truthy category
    then List.filter (λ p, strict_eq (get p "category") category) result
    else result in
  match (if truthy search
         then filter_throwing (name_includes search) result
         else inr result) with
  | inl err => (st, Threw err)
  | inr result =>
      let start_ :=
        p ← parseInt page; l ← parseInt limit; Some ((p - 1) * l) in
      let end_ := s ← start_; l ← parseInt limit; Some (s + l) in
      let paginated := slice result start_ end_ in
      respond st 200
        (Json (VObj (object_of
           [("total", VNum (Z.of_nat (length result)));
            ("page", number (parseInt page));
            ("limit", number (parseInt limit));
            ("products", VArr (VObj <$> paginated))])))
  end.

(** The properties every object literal inherits from [Object.prototype]. *)
Definition object_prototype : list string :=
  ["constructor"; "__defineGetter__"; "__defineSetter__"; "hasOwnProperty";
   "__lookupGetter__"; "__lookupSetter__"; "isPrototypeOf";
   "propertyIsEnumerable"; "toString"; "valueOf"; "__proto__";
   "toLocaleString"].

(** [String(Object.prototype[k])] for an inherited member [k] (V8's
    rendering of a native function). *)
Definition inherited_to_string (k : string) : string :=
  if String.eqb k "__proto__" then "[object Object]"
  else "function " +:+ (if String.eqb k "constructor" then "Object" else k)
       +:+ "() { [native code] }".

(** [(x || 0) + 1] *)
Definition or_zero_plus_one (x : value) : value :=
  if truthy x then
    match x with
    | VNum n => VNum (n + 1)
    | VBool _ => VNum 2
    | other => VStr (to_string other +:+ "1")
    end
  else VNum 1.

(** One turn of the [forEach] of line 146:
    [stats[p.category] = (stats[p.category] || 0) + 1], where [stats]
    holds the own properties of the object.  A read of a key that is not
    an own property falls back on [Object.prototype]; an assignment to
    [__proto__] of a value that is not an object changes nothing. *)
Definition count_category (stats p : gmap string value) : gmap string value :=
  let k := to_string (get p "category") in
  let updated :=
    match stats !! k with
    | Some x => or_zero_plus_one x
    | None =>
        if bool_decide (k ∈ object_prototype)
        then VStr (inherited_to_string k +:+ "1")
        else VNum 1
    end in
  if String.eqb k "__proto__" then stats else <[k := updated]> stats.

(** [app.get('/api/products/stats')], line 144 *)
Definition product_stats : handler := λ _ _ st,
  let stats := foldl count_category ∅ (products st) in
  respond st 200 (Json (VObj stats)).

(** The error-handling middleware, line 168 *)
Definition error_handler (err : error) : handler := λ _ _ st,
  match err with
  | NotFoundError m =>
      respond st 404 (Json (VObj (object_of
        [("error", VStr "NotFoundError"); ("message", VStr m)])))
  | ValidationError m =>
      respond st 400 (Json (VObj (object_of
        [("error", VStr "ValidationError"); ("message", VStr m)])))
  | TypeError m =>
      respond st 500 (Json (VObj (object_of
        [("error", VStr "InternalServerError"); ("message", VStr m)])))
  end.

(** ** The router *)

(** A route path is a list of segments: a literal, matched without regard
    to case, or a parameter [:name], matched by any non-empty segment. *)
Inductive segment := Lit (s : string) | Param (name : string).

Fixpoint match_path (pat : list segment) (p : list string)
  : option (gmap string string) :=
  match pat, p with
  | [], [] => Some ∅
  | Lit s :: pat', x :: p' =>
      if String.eqb (toLowerCase s) (toLowerCase x)
      then match_path pat' p' else None
  | Param name :: pat', x :: p' =>
      if String.eqb x "" then None
      else <[name := x]> <$> match_path pat' p'
  | _, _ => None
  end.

(** A layer of the application stack. *)
Inductive layer :=
| Use (h : handler)
| Route (m : verb) (pat : list segment) (chain : list handler)
| UseError (h : error → handler).

(** The handlers of one route, in order, until one of them does not call
    [next()]. *)
Fixpoint run_chain (chain : list handler) (e : env) (rq : request) (st : state)
  : state * outcome :=
  match chain with
  | [] => (st, Next)
  | h :: chain' =>
      match h e rq st with
      | (st', Next) => run_chain chain' e rq st'
      | done => done
      end
  end.

Definition error_status (err : error) : Z :=
  match err with
  | NotFoundError _ => 404
  | ValidationError _ => 400
  | TypeError _ => 500
  end.

(** Express's dispatch loop over the layers that remain.  [pending] is the
    error being propagated, if any: with an error only error-handling
    layers run, without one only the others.  When the stack is exhausted
    Express answers by itself: 404, or the status of the pending error. *)
Fixpoint handle (stack : list layer) (pending : option error)
    (e : env) (rq : request) (st : state) : state * response :=
  let continue (stack' : list layer) (r : state * outcome) :=
    match r with
    | (st', Responded resp) => (st', resp)
    | (st', Next) => handle stack' None e rq st'
    | (st', Threw err) => handle stack' (Some err) e rq st'
    end in
  match stack with
  | [] =>
      (st, {| status := from_option error_status 404 pending;
              content := FinalHandler |})
  | l :: stack' =>
      match pending, l with
      | None, Use h => continue stack' (h e rq st)
      | None, Route m pat chain =>
          if verb_eqb m (method rq) then
            match match_path pat (path rq) with
            | Some ps => continue stack' (run_chain chain e (with_params rq ps) st)
            | None => handle stack' None e rq st
            end
          else handle stack' None e rq st
      | Some err, UseError h => continue stack' (h err e rq st)
      | None, UseError _ | Some _, Use _ | Some _, Route _ _ _ =>
          handle stack' pending e rq st
      end
  end.

Definition products_path : list segment := [Lit "api"; Lit "products"].
Definition product_path : list segment := [Lit "api"; Lit "products"; Param "id"].
Definition stats_path : list segment := [Lit "api"; Lit "products"; Lit "stats"].

(** The application: every [app.use] and [app.METHOD] call of server.js,
    in the order of the file. *)
Definition app : list layer :=
  [ Use bodyParser_json;
    Route GET [] [root];
    Route GET products_path [list_products];
    Route GET product_path [get_product];
    Route POST products_path [create_product];
    Route PUT product_path [update_product];
    Route DELETE product_path [delete_product];
    Use logger;
    Route GET products_path [list_products_advanced];
    Route GET stats_path [product_stats];
    Route POST products_path [authenticate; validateProduct; create_product];
    Route PUT product_path [authenticate; validateProduct; update_product];
    UseError error_handler ].

(** One request against the application. *)
Definition serve (e : env) (rq : request) (st : state) : state * response :=
  handle app None e rq st.

(** A sequence of requests, each with what the runtime supplied for it. *)
Fixpoint serve_all (trace : list (env * request)) (st : state) : state :=
  match trace with
  | [] => st
  | (e, rq) :: trace' => serve_all trace' (serve e rq st).1
  end.

(** * Vocabulary of the properties *)

(** The first-registered route a request enters, if any. *)
Definition entered (rq : request) : bool :=
  match method rq with
  | GET =>
      bool_decide (is_Some (match_path [] (path rq)))
      || bool_decide (is_Some (match_path products_path (path rq)))
      || bool_decide (is_Some (match_path product_path (path rq)))
  | POST => bool_decide (is_Some (match_path products_path (path rq)))
  | PUT | DELETE => bool_decide (is_Some (match_path product_path (path rq)))
  end.

(** The application without the later registration of each
    twice-registered route. *)
Definition app_collapsed : list layer :=
  [ Use bodyParser_json;
    Route GET [] [root];
    Route GET products_path [list_products];
    Route GET product_path [get_product];
    Route POST products_path [create_product];
    Route PUT product_path [update_product];
    Route DELETE product_path [delete_product];
    Use logger;
    Route GET stats_path [product_stats];
    UseError error_handler ].

(** Two handler chains of one route are equivalent when they agree on every
    request and state. *)
Definition chains_equivalent (c1 c2 : list handler) : Prop :=
  ∀ e rq st, run_chain c1 e rq st = run_chain c2 e rq st.

(** The request carries the configured key. *)
Definition has_api_key (rq : request) : bool :=
  bool_decide (headers rq !! "x-api-key" = Some "my-secret-key").

(** The validation rule in the words of the specification: [name] truthy,
    [description] truthy, [price] numeric, [category] truthy, [inStock]
    boolean. *)
Definition valid_product_data (b : gmap string value) : bool :=
  truthy (get b "name")
  && truthy (get b "description")
  && String.eqb (typeof (get b "price")) "number"
  && truthy (get b "category")
  && String.eqb (typeof (get b "inStock")) "boolean".

(** The ids of a collection, in order. *)
Definition ids (ps : list (gmap string value)) : list value :=
  (λ p, get p "id") <$> ps.

(** Every product of the collection has a unique id. *)
Definition unique_ids (st : state) : Prop := NoDup (ids (products st)).

(** No product of the collection has the id [id]. *)
Definition absent (id : string) (ps : list (gmap string value)) : bool :=
  forallb (λ p, negb (strict_eq (get p "id") (VStr id))) ps.

(** A request under which the ids stay unique: a create whose generated
    uuid is not in the collection yet, an update whose body carries no
    [id] or an [id] that no other product of the collection has, or any
    other request. *)
Definition keeps_ids (e : env) (rq : request) (st : state) : Prop :=
  match method rq with
  | POST =>
      match match_path products_path (path rq) with
      | Some _ => absent (uuidv4 e) (products st) = true
      | None => True
      end
  | PUT =>
      match match_path product_path (path rq), body rq !! "id" with
      | Some ps, Some v =>
          ∀ index,
            findIndex (has_id (with_params rq ps)) (products st) = Some index →
            v ∉ ids (delete index (products st))
      | _, _ => True
      end
  | GET | DELETE => True
  end.

Fixpoint all_keep_ids (trace : list (env * request)) (st : state) : Prop :=
  match trace with
  | [] => True
  | (e, rq) :: trace' =>
      keeps_ids e rq st ∧ all_keep_ids trace' (serve e rq st).1
  end.

(** Number of products whose category, as a property key, is [k]. *)
Definition occurrences (k : string) (ps : list (gmap string value)) : Z :=
  Z.of_nat
    (length (List.filter (λ p, String.eqb (to_string (get p "category")) k) ps)).

(** ** Sample requests *)

Definition request_of (m : verb) (p : list string) (url : string)
    (key : option string) (q b : list (string * value)) : request :=
  {| method := m; path := p; originalUrl := url;
     headers := from_option (λ k, {["x-api-key" := k]}) ∅ key;
     query := object_of q; body := object_of b; params := ∅ |}.

Definition env0 : env :=
  {| uuidv4 := "9b1deb4d-3b7d-4bad-9bdd-2b0d7b3dcb6d";
     now := "2024-01-01T00:00:00.000Z" |}.

Definition tablet : list (string * value) :=
  [("name", VStr "Tablet"); ("description", VStr "10-inch tablet");
   ("price", VNum 300); ("category", VStr "electronics");
   ("inStock", VBool true)].

Definition tablet_without_description : list (string * value) :=
  [("name", VStr "Tablet"); ("price", VNum 300);
   ("category", VStr "electronics"); ("inStock", VBool true)].

(** [POST /api/products] with no [x-api-key] header *)
Definition post_without_key : request :=
  request_of POST ["api"; "products"] "/api/products" None [] tablet.

(** [PUT /api/products/1] with a wrong [x-api-key] header *)
Definition put_with_wrong_key : request :=
  request_of PUT ["api"; "products"; "1"] "/api/products/1"
    (Some "not-the-key") [] tablet.

(** [POST /api/products] with the key and no [description] *)
Definition post_without_description : request :=
  request_of POST ["api"; "products"] "/api/products"
    (Some "my-secret-key") [] tablet_without_description.

(** [PUT /api/products/1] with the key and no [description] *)
Definition put_without_description : request :=
  request_of PUT ["api"; "products"; "1"] "/api/products/1"
    (Some "my-secret-key") [] tablet_without_description.

(** [POST /api/products] with the key and a valid body *)
Definition post_tablet : request :=
  request_of POST ["api"; "products"] "/api/products"
    (Some "my-secret-key") [] tablet.

(** [GET /api/products?page=1&limit=2] *)
Definition get_first_page_of_two : request :=
  request_of GET ["api"; "products"] "/api/products?page=1&limit=2" None
    [("page", VStr "1"); ("limit", VStr "2")] [].

(** [GET /api/products/stats] *)
Definition get_stats : request :=
  request_of GET ["api"; "products"; "stats"] "/api/products/stats" None [] [].

(** [PUT /api/products/1] with the key and a valid body that also holds
    ["id": "2"] *)
Definition put_id_2_on_1 : request :=
  request_of PUT ["api"; "products"; "1"] "/api/products/1"
    (Some "my-secret-key") [] (("id", VStr "2") :: tablet).

(** [PUT /api/products/1] with body [{"price": 999}] *)
Definition put_price_on_1 : request :=
  request_of PUT ["api"; "products"; "1"] "/api/products/1"
    (Some "my-secret-key") [] [("price", VNum 999)].

(** [DELETE /api/products/2] and [GET /api/products/2] *)
Definition delete_2 : request :=
  request_of DELETE ["api"; "products"; "2"] "/api/products/2" None [] [].



(** [GET /health], which no route matches *)
Definition get_health : request :=
  request_of GET ["health"] "/health" None [] [].

(** The record a create request with body [tablet] stores under [env0], and
    the record an update of product 1 with body [tablet] leaves. *)
Definition created (b : list (string * value)) : gmap string value :=
  object_of [("id", VStr (uuidv4 env0)); ("name", get (object_of b) "name");
             ("description", get (object_of b) "description");
             ("price", get (object_of b) "price");
             ("category", get (object_of b) "category");
             ("inStock", get (object_of b) "inStock")].

Definition laptop : gmap string value :=
  product_record "1" "Laptop" "High-performance laptop with 16GB RAM"
    1200 "electronics" true.

Definition smartphone : gmap string value :=
  product_record "2" "Smartphone" "Latest model with 128GB storage"
    800 "electronics" true.

Definition coffee_maker : gmap string value :=
  product_record "3" "Coffee Maker" "Programmable coffee maker with timer"
    50 "kitchen" false.

Definition unauthorized : response :=
  {| status := 401;
     content := Json (error_body "Unauthorized: Invalid API key") |}.

Definition invalid_product : response :=
  {| status := 400;
     content := Json (error_body "ValidationError: Invalid product data") |}.

Definition product_not_found : response :=
  {| status := 404; content := Json (error_body "Product not found") |}.

(** * Vocabulary of the further properties *)

(** The line the logger writes for a request. *)
Definition log_line (e : env) (rq : request) : string :=
  "[" +:+ now e +:+ "] " +:+ verb_name (method rq) +:+ " " +:+ originalUrl rq.

(** The object the filtering list handler answers with. *)
Definition listing (total : Z) (page limit : value)
    (items : list (gmap string value)) : response :=
  {| status := 200;
     content := Json (VObj (object_of
       [("total", VNum total); ("page", page); ("limit", limit);
        ("products", VArr (VObj <$> items))])) |}.

(** The answer of get-by-id for the id [id]: the first product with that
    id, or 404. *)
Definition lookup_answer (id : string) (ps : list (gmap string value))
  : response :=
  match List.find (λ p, strict_eq (get p "id") (VStr id)) ps with
  | Some p => {| status := 200; content := Json (VObj p) |}
  | None => product_not_found
  end.

(** A request with another query string. *)
Definition with_query (rq : request) (q : gmap string value) : request :=
  {| method := method rq; path := path rq; originalUrl := originalUrl rq;
     headers := headers rq; query := q; body := body rq;
     params := params rq |}.

(** The six fields of a created record. *)
Definition record_fields : gset string :=
  {["id"; "name"; "description"; "price"; "category"; "inStock"]}.

(** The sum of the counts of a stats object. *)
Definition count_of (v : value) : Z :=
  match v with VNum n => n | _ => 0 end.

Definition stats_total (stats : gmap string value) : Z :=
  map_fold (λ _ v acc, count_of v + acc) 0 stats.

(** The value is not a string. *)
Definition not_a_string (v : value) : bool :=
  match v with VStr _ => false | _ => true end.

(** The answer of the error-handling middleware to an error. *)
Definition error_answer (err : error) : response :=
  match err with
  | NotFoundError m =>
      {| status := 404;
         content := Json (VObj (object_of
           [("error", VStr "NotFoundError"); ("message", VStr m)])) |}
  | ValidationError m =>
      {| status := 400;
         content := Json (VObj (object_of
           [("error", VStr "ValidationError"); ("message", VStr m)])) |}
  | TypeError m =>
      {| status := 500;
         content := Json (VObj (object_of
           [("error", VStr "InternalServerError"); ("message", VStr m)])) |}
  end.

(** ** Further sample requests *)

(** [GET /api/products?category=electronics] *)
Definition get_electronics : request :=
  request_of GET ["api"; "products"] "/api/products?category=electronics" None
    [("category", VStr "electronics")] [].

(** [GET /api/products?search=PHONE] *)
Definition get_search_phone : request :=
  request_of GET ["api"; "products"] "/api/products?search=PHONE" None
    [("search", VStr "PHONE")] [].

(** [GET /api/products?page=two] *)
Definition get_page_two_in_letters : request :=
  request_of GET ["api"; "products"] "/api/products?page=two" None
    [("page", VStr "two")] [].

(** [GET /api/products] with no query *)
Definition get_products : request :=
  request_of GET ["api"; "products"] "/api/products" None [] [].

(** [GET /api/products/1] and [GET /api/products/7] *)
Definition get_1 : request :=
  request_of GET ["api"; "products"; "1"] "/api/products/1" None [] [].

Definition get_7 : request :=
  request_of GET ["api"; "products"; "7"] "/api/products/7" None [] [].

(** [PUT /api/products/7] with body [tablet] *)
Definition put_tablet_on_7 : request :=
  request_of PUT ["api"; "products"; "7"] "/api/products/7"
    (Some "my-secret-key") [] tablet.

(** [DELETE /api/products/<the uuid of env0>] *)
Definition delete_created : request :=
  request_of DELETE ["api"; "products"; uuidv4 env0]
    ("/api/products/" +:+ uuidv4 env0) None [] [].

(** [POST /api/products] with the key and a valid body whose [name] is the
    number 5 and which also holds an [id] and a [colour] *)
Definition post_numeric_name : request :=
  request_of POST ["api"; "products"] "/api/products" (Some "my-secret-key") []
    [("id", VStr "1"); ("name", VNum 5); ("description", VStr "d");
     ("price", VNum 0); ("category", VStr "misc"); ("inStock", VBool false);
     ("colour", VStr "red")].

(** ** The steps of the filtering list handler *)

(** The category filter of line 130. *)
Definition by_category (category : value) (ps : list (gmap string value))
  : list (gmap string value) :=
  if truthy category
  then List.filter (λ p, strict_eq (get p "category") category) ps
  else ps.

(** The search filter of line 133. *)
Definition by_search (search : value) (ps : list (gmap string value))
  : error + list (gmap string value) :=
  if truthy search then filter_throwing (name_includes search) ps
  else inr ps.

(** [start] and [end] of lines 137 and 138. *)
Definition page_start (page limit : value) : option Z :=
  p ← parseInt page; l ← parseInt limit; Some ((p - 1) * l).

Definition page_end (page limit : value) : option Z :=
  s ← page_start page limit; l ← parseInt limit; Some (s + l).

(** The product has the category [c]. *)
Definition has_category (c : string) (p : gmap string value) : bool :=
  strict_eq (get p "category") (VStr c).

(** The name of the product is a string that contains [s], case apart. *)
Definition name_matches (s : string) (p : gmap string value) : bool :=
  match get p "name" with
  | VStr name => includes (toLowerCase name) (toLowerCase s)
  | _ => false
  end.

(** Every category of the collection is a string, and none is the name
    of a member of [Object.prototype]. *)
Definition plain_categories (ps : list (gmap string value)) : bool :=
  forallb
    (λ p, match get p "category" with
          | VStr c => bool_decide (c ∉ object_prototype)
          | _ => false
          end) ps.

(** The string holds ASCII characters only: on such strings [toLowerCase]
    and the white space [parseInt] skips are those of JavaScript. *)
Fixpoint is_ascii (s : string) : bool :=
  match s with
  | EmptyString => true
  | String c s' => (nat_of_ascii c <? 128)%nat && is_ascii s'
  end.

(** Every name of the collection that is a string is an ASCII string. *)
Definition ascii_names (ps : list (gmap string value)) : bool :=
  forallb
    (λ p, match get p "name" with VStr n => is_ascii n | _ => true end) ps.

(** The query value is absent or a string, not an array or an object. *)
Definition scalar (v : value) : bool :=
  match v with VArr _ | VObj _ => false | _ => true end.

(** The query value [v], a string or the number of a default, reads as
    the integer [z], and [z] is small enough for the arithmetic of lines
    137 to 140 to be exact in double precision. *)
Definition reads_as (v : value) (z : Z) : bool :=
  match v with
  | VStr _ | VNum _ =>
      bool_decide (parseInt v = Some z)
      && (-67108864 <=? z) && (z <=? 67108864)
  | _ => false
  end.

(** [PUT /api/products/1] with body [{"id": "9"}] *)
Definition put_id_9_on_1 : request :=
  request_of PUT ["api"; "products"; "1"] "/api/products/1" None []
    [("id", VStr "9")].

(** [PUT /api/products/2] with body [{"id": "2"}] *)
Definition put_id_2_on_2 : request :=
  request_of PUT ["api"; "products"; "2"] "/api/products/2" None []
    [("id", VStr "2")].

(** [GET /api/products?limit=-2] and [GET /api/products?page=0] *)
Definition get_limit_minus_2 : request :=
  request_of GET ["api"; "products"] "/api/products?limit=-2" None
    [("limit", VStr "-2")] [].

Definition get_page_0 : request :=
  request_of GET ["api"; "products"] "/api/products?page=0" None
    [("page", VStr "0")] [].
(** * Proofs *)

(** * The built-ins on examples *)

Example parseInt_examples :
  parseInt (VStr "2") = Some 2
  ∧ parseInt (VStr "  -12px") = Some (-12)
  ∧ parseInt (VStr "0x1f") = Some 31
  ∧ parseInt (VStr "ten") = None
  ∧ parseInt (VNum 10) = Some 10
  ∧ parseInt (VArr [VStr "3"; VStr "4"]) = Some 3.
Proof. repeat split; reflexivity. Qed.

Example slice_examples :
  slice [1; 2; 3] (Some 0) (Some 2) = [1; 2]
  ∧ slice [1; 2; 3] (Some 2) (Some 4) = [3]
  ∧ slice [1; 2; 3] (Some (-2)) (Some 3) = [2; 3]
  ∧ slice [1; 2; 3] None None = [].
Proof. repeat split; reflexivity. Qed.

Example includes_examples :
  includes (toLowerCase "Coffee Maker") (toLowerCase "MAKE") = true
  ∧ includes "laptop" "" = true
  ∧ includes "laptop" "phone" = false.
Proof. repeat split; reflexivity. Qed.

Example match_path_examples :
  match_path products_path ["API"; "Products"] = Some ∅
  ∧ match_path product_path ["api"; "products"; "stats"]
    = Some {["id" := "stats"]}
  ∧ match_path product_path ["api"; "products"; ""] = None
  ∧ match_path product_path ["api"; "products"] = None.
Proof. repeat split; reflexivity. Qed.

(** * Lemmas on the built-ins *)

Section FindIndex.
Context {A : Type} (f : A → bool).

Lemma findIndex_None (l : list A) :
  findIndex f l = None ↔ forallb (λ x, negb (f x)) l = true.
Proof.
  induction l as [|x l IH]; simpl; [done|].
  destruct (f x); simpl; [done|].
  rewrite <- IH. destruct (findIndex f l); simpl; split; done.
Qed.

(** [findIndex] returns the position of the first element that satisfies
    the callback. *)
Lemma findIndex_Some (l : list A) (i : nat) :
  findIndex f l = Some i →
  ∃ l1 x l2, l = l1 ++ x :: l2 ∧ length l1 = i
             ∧ forallb (λ x, negb (f x)) l1 = true ∧ f x = true.
Proof.
  revert i. induction l as [|x l IH]; intros i; simpl; [done|].
  destruct (f x) eqn:Hx.
  - intros [= <-]. by exists [], x, l.
  - destruct (findIndex f l) as [j|]; simpl; [|done].
    intros [= <-]. destruct (IH j eq_refl) as (l1 & y & l2 & -> & <- & H1 & Hy).
    exists (x :: l1), y, l2. simpl. rewrite Hx, H1. done.
Qed.

Lemma find_app (l1 l2 : list A) (x : A) :
  forallb (λ x, negb (f x)) l1 = true → f x = true →
  List.find f (l1 ++ x :: l2) = Some x.
Proof.
  intros H1 Hx. induction l1 as [|y l1 IH]; simpl in *.
  - by rewrite Hx.
  - apply andb_prop in H1 as [Hy H1]. apply negb_true_iff in Hy.
    rewrite Hy. auto.
Qed.

End FindIndex.

Lemma insert_middle {A} (l1 l2 : list A) (x y : A) :
  <[length l1 := y]> (l1 ++ x :: l2) = l1 ++ y :: l2.
Proof.
  rewrite insert_app_r_alt by lia. by rewrite Nat.sub_diag.
Qed.

Lemma delete_middle {A} (l1 l2 : list A) (x : A) :
  delete (length l1) (l1 ++ x :: l2) = l1 ++ l2.
Proof. induction l1 as [|? ? IH]; simpl; [done|]. by rewrite IH. Qed.

Lemma lookup_middle' {A} (l1 l2 : list A) (x : A) :
  (l1 ++ x :: l2) !! length l1 = Some x.
Proof. apply list_lookup_middle. done. Qed.

Lemma strict_eq_string (v : value) (s : string) :
  strict_eq v (VStr s) = true ↔ v = VStr s.
Proof.
  destruct v; simpl; try (split; intros; discriminate).
  rewrite String.eqb_eq. split; congruence.
Qed.

(** The callback of [find] and [findIndex], once the router has bound
    [:id]. *)
Lemma has_id_bound rq id p :
  has_id (with_params rq {["id" := id]}) p = strict_eq (get p "id") (VStr id).
Proof. reflexivity. Qed.

Lemma absent_has_id rq id ps :
  forallb (λ p, negb (has_id (with_params rq {["id" := id]}) p)) ps
  = absent id ps.
Proof. reflexivity. Qed.

Lemma absent_not_elem_of id ps : absent id ps = true ↔ VStr id ∉ ids ps.
Proof.
  unfold absent, ids. induction ps as [|p ps IH]; simpl.
  - split; [intros _; apply not_elem_of_nil|done].
  - rewrite andb_true_iff, IH, not_elem_of_cons, negb_true_iff.
    rewrite <- not_true_iff_false, strict_eq_string.
    split; intros [H1 H2]; (split; [congruence|done]).
Qed.

Lemma absent_app id ps qs : absent id (ps ++ qs) = absent id ps && absent id qs.
Proof. apply forallb_app. Qed.

(** Spread is a shallow merge. *)
Lemma spread_lookup (a b : gmap string value) (k : string) :
  spread a b !! k = match b !! k with Some v => Some v | None => a !! k end.
Proof.
  unfold spread. destruct (b !! k) as [v|] eqn:E.
  - by apply lookup_union_Some_l.
  - by rewrite lookup_union_r.
Qed.

Lemma get_spread (a b : gmap string value) (k : string) :
  get (spread a b) k = match b !! k with Some v => v | None => get a k end.
Proof. unfold get. rewrite spread_lookup. by destruct (b !! k). Qed.

(** * Routing lemmas *)

Lemma match_path_length pat p ps :
  match_path pat p = Some ps → length pat = length p.
Proof.
  revert p ps. induction pat as [|s pat IH]; intros [|x p] ps; simpl; try done.
  - destruct s; done.
  - destruct s.
    + destruct (String.eqb _ _); [|done]. intros H. f_equal. eauto.
    + destruct (String.eqb x ""); [done|].
      destruct (match_path pat p) eqn:E; [|done]. intros _. f_equal. eauto.
Qed.

Lemma match_path_other_length pat pat' p ps :
  match_path pat p = Some ps → length pat' ≠ length pat →
  match_path pat' p = None.
Proof.
  intros H Hne. destruct (match_path pat' p) eqn:E; [|done].
  apply match_path_length in H, E. congruence.
Qed.

(** A path matches [/api/products/:id] exactly when it has three segments,
    the first two being [api] and [products] up to case and the third not
    empty; the third is then bound to [id]. *)
Lemma match_product_path p ps :
  match_path product_path p = Some ps →
  ∃ a b id, p = [a; b; id] ∧ id ≠ "" ∧ ps = {["id" := id]}.
Proof.
  intros H. pose proof (match_path_length _ _ _ H) as Hl.
  destruct p as [|a [|b [|id [|? ?]]]]; try done.
  exists a, b, id. split; [done|].
  unfold product_path in H. cbn [match_path] in H.
  destruct (String.eqb _ (toLowerCase a)); [|done].
  destruct (String.eqb _ (toLowerCase b)); [|done].
  destruct (String.eqb id "") eqn:E; [done|].
  apply String.eqb_neq in E. split; [done|].
  cbn in H. by inversion H.
Qed.

(** Every path that matches [/api/products/stats] also matches
    [/api/products/:id]. *)
Lemma stats_path_is_product_path p ps :
  match_path stats_path p = Some ps → is_Some (match_path product_path p).
Proof.
  intros H. pose proof (match_path_length _ _ _ H) as Hl.
  destruct p as [|a [|b [|id [|? ?]]]]; try done.
  unfold stats_path, product_path in *. cbn [match_path] in *.
  destruct (String.eqb _ (toLowerCase a)); [|done].
  destruct (String.eqb _ (toLowerCase b)); [|done].
  destruct (String.eqb id "") eqn:E.
  - apply String.eqb_eq in E. subst id. done.
  - cbn. eauto.
Qed.

Lemma not_product_path_not_stats p :
  match_path product_path p = None → match_path stats_path p = None.
Proof.
  intros H. destruct (match_path stats_path p) eqn:E; [|done].
  apply stats_path_is_product_path in E as [? ?]. congruence.
Qed.

(** One step of the dispatch loop, by kind of layer. *)
Lemma handle_skip_verb m pat chain stack e rq st :
  verb_eqb m (method rq) = false →
  handle (Route m pat chain :: stack) None e rq st = handle stack None e rq st.
Proof. intros H. cbn [handle]. by rewrite H. Qed.

Lemma handle_skip_path m pat chain stack e rq st :
  match_path pat (path rq) = None →
  handle (Route m pat chain :: stack) None e rq st = handle stack None e rq st.
Proof. intros H. cbn [handle]. rewrite H. by destruct (verb_eqb _ _). Qed.

Lemma handle_enter m pat chain stack e rq st ps st' r :
  method rq = m →
  match_path pat (path rq) = Some ps →
  run_chain chain e (with_params rq ps) st = (st', Responded r) →
  handle (Route m pat chain :: stack) None e rq st = (st', r).
Proof.
  intros <- Hp Hr. cbn [handle]. rewrite Hp, Hr. by destruct (method rq).
Qed.

Lemma handle_use_next h stack e rq st st' :
  h e rq st = (st', Next) →
  handle (Use h :: stack) None e rq st = handle stack None e rq st'.
Proof. intros H. cbn [handle]. by rewrite H. Qed.

Lemma handle_skip_error h stack e rq st :
  handle (UseError h :: stack) None e rq st = handle stack None e rq st.
Proof. reflexivity. Qed.

Lemma handle_exhausted e rq st :
  handle [] None e rq st = (st, {| status := 404; content := FinalHandler |}).
Proof. reflexivity. Qed.

(** Skips the layers that the hypotheses in the context rule out. *)
Ltac skip_layers :=
  repeat first
    [ rewrite handle_skip_verb
        by (match goal with H : method _ = _ |- _ => rewrite H end; reflexivity)
    | rewrite handle_skip_path by assumption
    | rewrite handle_skip_path
        by (eapply match_path_other_length; [eassumption | compute; lia])
    | rewrite handle_skip_path by (by apply not_product_path_not_stats)
    | rewrite handle_skip_error
    | rewrite handle_exhausted
    | erewrite (handle_use_next bodyParser_json) by reflexivity
    | erewrite (handle_use_next logger) by reflexivity ].

(** The handlers of the first registrations always answer. *)
Lemma root_responds e rq st : ∃ r, root e rq st = (st, Responded r).
Proof. unfold root, respond. eauto. Qed.

Lemma list_products_responds e rq st :
  ∃ r, list_products e rq st = (st, Responded r).
Proof. unfold list_products, respond. eauto. Qed.

Lemma create_product_responds e rq st :
  ∃ st' r, create_product e rq st = (st', Responded r).
Proof. unfold create_product. eauto. Qed.

Lemma get_product_responds e rq st :
  ∃ r, get_product e rq st = (st, Responded r).
Proof. unfold get_product, respond. destruct (List.find _ _); eauto. Qed.

Lemma update_product_responds e rq st :
  ∃ st' r, update_product e rq st = (st', Responded r).
Proof. unfold update_product, respond. destruct (findIndex _ _); eauto. Qed.

Lemma delete_product_responds e rq st :
  ∃ st' r, delete_product e rq st = (st', Responded r).
Proof. unfold delete_product, respond. destruct (findIndex _ _); eauto. Qed.

Lemma run_single h e rq st st' r :
  h e rq st = (st', Responded r) → run_chain [h] e rq st = (st', Responded r).
Proof. intros H. cbn [run_chain]. by rewrite H. Qed.

(** What [serve] does, route by route. *)
Lemma serve_GET_root e rq st ps :
  method rq = GET → match_path [] (path rq) = Some ps →
  serve e rq st = (st, {| status := 200; content := Send
    "Welcome to the Product API! Go to /api/products to see all products." |}).
Proof.
  intros Hm Hp. unfold serve, app. skip_layers.
  erewrite handle_enter; [reflexivity|done|done|reflexivity].
Qed.

Lemma serve_GET_products e rq st ps :
  method rq = GET → match_path products_path (path rq) = Some ps →
  serve e rq st =
    (st, {| status := 200; content := Json (VArr (VObj <$> products st)) |}).
Proof.
  intros Hm Hp. unfold serve, app. skip_layers.
  erewrite handle_enter; [reflexivity|done|done|reflexivity].
Qed.

Lemma serve_GET_product e rq st ps st' r :
  method rq = GET → match_path product_path (path rq) = Some ps →
  get_product e (with_params rq ps) st = (st', Responded r) →
  serve e rq st = (st', r).
Proof.
  intros Hm Hp Hr. unfold serve, app. skip_layers.
  erewrite handle_enter; [reflexivity|done|done|by apply run_single].
Qed.

Lemma serve_POST_products e rq st ps st' r :
  method rq = POST → match_path products_path (path rq) = Some ps →
  create_product e (with_params rq ps) st = (st', Responded r) →
  serve e rq st = (st', r).
Proof.
  intros Hm Hp Hr. unfold serve, app. skip_layers.
  erewrite handle_enter; [reflexivity|done|done|by apply run_single].
Qed.

Lemma serve_PUT_product e rq st ps st' r :
  method rq = PUT → match_path product_path (path rq) = Some ps →
  update_product e (with_params rq ps) st = (st', Responded r) →
  serve e rq st = (st', r).
Proof.
  intros Hm Hp Hr. unfold serve, app. skip_layers.
  erewrite handle_enter; [reflexivity|done|done|by apply run_single].
Qed.

Lemma serve_DELETE_product e rq st ps st' r :
  method rq = DELETE → match_path product_path (path rq) = Some ps →
  delete_product e (with_params rq ps) st = (st', Responded r) →
  serve e rq st = (st', r).
Proof.
  intros Hm Hp Hr. unfold serve, app. skip_layers.
  erewrite handle_enter; [reflexivity|done|done|by apply run_single].
Qed.

(** A request that enters none of them is logged and answered by Express
    itself. *)
Lemma serve_not_entered e rq st :
  entered rq = false →
  serve e rq st =
    ((logger e rq st).1, {| status := 404; content := FinalHandler |}).
Proof.
  unfold entered. intros H.
  destruct (method rq) eqn:Hm;
    repeat (apply orb_false_elim in H as [H ?]);
    repeat match goal with
           | H : bool_decide (is_Some _) = false |- _ =>
               apply bool_decide_eq_false, eq_None_not_Some in H
           end;
    unfold serve, app; skip_layers; reflexivity.
Qed.

(** The state a request leaves behind: a read leaves it alone (or logs the
    request, when no route is entered), a write is the effect of the
    handler of its first registration. *)
Lemma serve_state e rq st :
  (serve e rq st).1 =
    match method rq with
    | GET => if entered rq then st else (logger e rq st).1
    | POST =>
        match match_path products_path (path rq) with
        | Some ps => (create_product e (with_params rq ps) st).1
        | None => (logger e rq st).1
        end
    | PUT =>
        match match_path product_path (path rq) with
        | Some ps => (update_product e (with_params rq ps) st).1
        | None => (logger e rq st).1
        end
    | DELETE =>
        match match_path product_path (path rq) with
        | Some ps => (delete_product e (with_params rq ps) st).1
        | None => (logger e rq st).1
        end
    end.
Proof.
  destruct (entered rq) eqn:He.
  - unfold entered in He. destruct (method rq) eqn:Hm.
    + apply orb_prop in He as [He|He]; [apply orb_prop in He as [He|He]|];
        apply bool_decide_eq_true in He as [ps Hp].
      * by erewrite serve_GET_root.
      * by erewrite serve_GET_products.
      * destruct (get_product_responds e (with_params rq ps) st) as [r Hr].
        by erewrite serve_GET_product.
    + apply bool_decide_eq_true in He as [ps Hp]. rewrite Hp.
      destruct (create_product_responds e (with_params rq ps) st)
        as (st' & r & Hr).
      erewrite serve_POST_products by done. by rewrite Hr.
    + apply bool_decide_eq_true in He as [ps Hp]. rewrite Hp.
      destruct (update_product_responds e (with_params rq ps) st)
        as (st' & r & Hr).
      erewrite serve_PUT_product by done. by rewrite Hr.
    + apply bool_decide_eq_true in He as [ps Hp]. rewrite Hp.
      destruct (delete_product_responds e (with_params rq ps) st)
        as (st' & r & Hr).
      erewrite serve_DELETE_product by done. by rewrite Hr.
  - rewrite serve_not_entered by done.
    unfold entered in He. destruct (method rq); [done|..];
      apply bool_decide_eq_false, eq_None_not_Some in He; by rewrite He.
Qed.

(** * The stats handler *)

Lemma occurrences_snoc k ps p :
  occurrences k (ps ++ [p]) =
    occurrences k ps
    + (if String.eqb (to_string (get p "category")) k then 1 else 0).
Proof.
  unfold occurrences. rewrite List.filter_app, length_app. simpl.
  destruct (String.eqb _ k); simpl; lia.
Qed.

(** As long as no category is the name of a member of [Object.prototype],
    the object the stats handler builds maps each category of the
    collection to the number of products in it, and has no other
    property. *)
Lemma stats_counts (ps : list (gmap string value)) (k : string) :
  Forall (λ p, to_string (get p "category") ∉ object_prototype) ps →
  foldl count_category ∅ ps !! k =
    if occurrences k ps =? 0 then None else Some (VNum (occurrences k ps)).
Proof.
  induction ps as [|p ps IH] using rev_ind; intros Hps; [done|].
  apply Forall_app in Hps as [Hps Hp]. rewrite Forall_singleton in Hp.
  specialize (IH Hps). rewrite foldl_app, occurrences_snoc. cbn [foldl].
  assert (0 ≤ occurrences k ps) as Hge by (unfold occurrences; lia).
  unfold count_category at 1.
  set (kp := to_string (get p "category")) in *.
  set (stats := foldl count_category ∅ ps) in *.
  assert (String.eqb kp "__proto__" = false) as ->.
  { apply String.eqb_neq. intros E. apply Hp. rewrite E.
    unfold object_prototype. set_solver. }
  destruct (String.eqb kp k) eqn:Ek.
  - apply String.eqb_eq in Ek. subst k. rewrite lookup_insert_eq, IH.
    destruct (occurrences kp ps =? 0) eqn:E0.
    + apply Z.eqb_eq in E0. rewrite E0.
      by rewrite bool_decide_eq_false_2.
    + apply Z.eqb_neq in E0.
      replace (occurrences kp ps + 1 =? 0) with false by (symmetry; lia).
      unfold or_zero_plus_one, truthy.
      by replace (occurrences kp ps =? 0) with false by (symmetry; lia).
  - apply String.eqb_neq in Ek. rewrite lookup_insert_ne by done.
    by rewrite IH, Z.add_0_r.
Qed.

(** A category that names a member of [Object.prototype] is not counted:
    the handler reads the inherited function and appends ["1"] to its
    text. *)
Example stats_of_an_inherited_name :
  foldl count_category ∅ [<["category" := VStr "constructor"]> laptop]
  = {["constructor" := VStr "function Object() { [native code] }1"]}.
Proof. vm_compute. reflexivity. Qed.

(** * The middleware of the later registrations *)

Lemma authenticate_spec e rq st :
  authenticate e rq st =
    if has_api_key rq then (st, Next) else (st, Responded unauthorized).
Proof.
  unfold authenticate, has_api_key.
  destruct (decide (headers rq !! "x-api-key" = Some "my-secret-key")) as [H|H].
  - rewrite bool_decide_eq_false_2 by (by intros ?).
    by rewrite bool_decide_eq_true_2.
  - rewrite bool_decide_eq_true_2 by done.
    by rewrite bool_decide_eq_false_2.
Qed.

Lemma validateProduct_spec e rq st :
  validateProduct e rq st =
    if valid_product_data (body rq) then (st, Next)
    else (st, Responded invalid_product).
Proof.
  unfold validateProduct, valid_product_data.
  destruct (truthy (get (body rq) "name")); [|done].
  destruct (truthy (get (body rq) "description")); [|done].
  destruct (String.eqb (typeof (get (body rq) "price")) "number"); [|done].
  destruct (truthy (get (body rq) "category")); [|done].
  destruct (String.eqb (typeof (get (body rq) "inStock")) "boolean"); done.
Qed.

(** The chain [authenticate, validateProduct, h] answers 401 without the
    key, 400 with the key and an invalid body, and runs [h] otherwise; it
    leaves the state alone in the first two cases. *)
Lemma guarded_chain h e rq st :
  run_chain [authenticate; validateProduct; h] e rq st =
    if negb (has_api_key rq) then (st, Responded unauthorized)
    else if negb (valid_product_data (body rq))
         then (st, Responded invalid_product)
         else run_chain [h] e rq st.
Proof.
  cbn [run_chain]. rewrite authenticate_spec.
  destruct (has_api_key rq); [|done]. cbn [negb].
  rewrite validateProduct_spec.
  by destruct (valid_product_data (body rq)).
Qed.

(** * C1-C4: what the first registrations answer *)

(** Whatever its headers and body, a [POST /api/products] is answered 201
    and makes the collection one record longer. *)
Lemma create_is_never_refused e rq st ps :
  method rq = POST → match_path products_path (path rq) = Some ps →
  status (serve e rq st).2 = 201
  ∧ length (products (serve e rq st).1) = S (length (products st)).
Proof.
  intros Hm Hp.
  erewrite serve_POST_products; [|done|done|reflexivity].
  cbn [fst snd status products set_products].
  rewrite length_app. simpl. split; [done|lia].
Qed.

(** C1.  A create without the [x-api-key] header and an update with a wrong
    one are not answered 401: the first registrations of the two routes,
    which carry no middleware, run the handlers, so the create answers 201
    and appends a record and the update answers 200 and rewrites
    product 1.  (The later registrations, which [serve] never reaches,
    answer 401 on these requests: [guarded_chain].) *)
Theorem C1_requests_without_the_key_are_served :
  serve env0 post_without_key initial =
    (set_products initial (seed ++ [created tablet]),
     {| status := 201; content := Json (VObj (created tablet)) |})
  ∧ serve env0 put_with_wrong_key initial =
    (set_products initial
       [spread laptop (object_of tablet); smartphone; coffee_maker],
     {| status := 200;
        content := Json (VObj (spread laptop (object_of tablet))) |})
  ∧ run_chain [authenticate; validateProduct; create_product]
      env0 post_without_key initial = (initial, Responded unauthorized)
  ∧ run_chain [authenticate; validateProduct; update_product]
      env0 put_with_wrong_key initial = (initial, Responded unauthorized).
Proof. repeat split; vm_compute; reflexivity. Qed.

(** C2.  A create and an update that carry the key and a body without
    [description] are not answered 400: the create answers 201 and appends
    a record whose [description] is [undefined], the update answers 200
    and rewrites product 1.  (The later registrations answer 400.) *)
Theorem C2_invalid_bodies_are_stored :
  serve env0 post_without_description initial =
    (set_products initial (seed ++ [created tablet_without_description]),
     {| status := 201;
        content := Json (VObj (created tablet_without_description)) |})
  ∧ get (created tablet_without_description) "description" = VUndefined
  ∧ serve env0 put_without_description initial =
    (set_products initial
       [spread laptop (object_of tablet_without_description);
        smartphone; coffee_maker],
     {| status := 200;
        content :=
          Json (VObj (spread laptop (object_of tablet_without_description))) |})
  ∧ run_chain [authenticate; validateProduct; create_product]
      env0 post_without_description initial
    = (initial, Responded invalid_product)
  ∧ run_chain [authenticate; validateProduct; update_product]
      env0 put_without_description initial
    = (initial, Responded invalid_product).
Proof. repeat split; vm_compute; reflexivity. Qed.

(** C3.  [GET /api/products?page=1&limit=2] on the three seeded products is
    answered by the first registration with the bare array of all three
    products, not with [{total, page, limit, products}].  (The later
    registration, which [serve] never reaches, answers total 3 and the
    first two products.) *)
Theorem C3_list_answers_the_bare_array :
  serve env0 get_first_page_of_two initial =
    (initial,
     {| status := 200;
        content := Json (VArr [VObj laptop; VObj smartphone; VObj coffee_maker]) |})
  ∧ list_products_advanced env0 get_first_page_of_two initial =
    (initial,
     Responded
       {| status := 200;
          content := Json (VObj (object_of
            [("total", VNum 3); ("page", VNum 1); ("limit", VNum 2);
             ("products", VArr [VObj laptop; VObj smartphone])])) |}).
Proof. split; vm_compute; reflexivity. Qed.

(** C4.  [GET /api/products/stats] on the seeded collection is answered 404
    by the handler of [/api/products/:id], registered earlier, which takes
    [stats] for an id.  (The stats handler, which [serve] never reaches,
    counts 2 [electronics] and 1 [kitchen]; see [stats_counts].) *)
Theorem C4_stats_is_taken_for_an_id :
  serve env0 get_stats initial = (initial, product_not_found)
  ∧ product_stats env0 get_stats initial =
    (initial,
     Responded
       {| status := 200;
          content := Json (VObj (object_of
            [("electronics", VNum 2); ("kitchen", VNum 1)])) |}).
Proof. split; vm_compute; reflexivity. Qed.

(** * C5: the two registrations of a route *)

(** Both stacks enter the route at their head, whose chain [Hr] answers. *)
Ltac enter_both Hm Hp Hr :=
  apply run_single in Hr;
  match type of Hr with
  | _ = (?st', Responded ?r) =>
      transitivity (st', r); [|symmetry];
      skip_layers; exact (handle_enter _ _ _ _ _ _ _ _ _ _ Hm Hp Hr)
  end.

Ltac exhaust_both :=
  match goal with
  | |- _ = handle _ None ?e ?rq ?st =>
      transitivity ((logger e rq st).1,
                    {| status := 404; content := FinalHandler |});
      [|symmetry]; skip_layers; reflexivity
  end.

(** The later registration of a twice-registered route is never entered:
    the application answers as the stack without them does. *)
Lemma serve_collapsed e rq st : serve e rq st = handle app_collapsed None e rq st.
Proof.
  unfold serve, app, app_collapsed.
  destruct (method rq) eqn:Hm.
  - destruct (match_path [] (path rq)) as [ps|] eqn:H0.
    { destruct (root_responds e (with_params rq ps) st) as [r Hr].
      enter_both Hm H0 Hr. }
    destruct (match_path products_path (path rq)) as [ps|] eqn:H1.
    { destruct (list_products_responds e (with_params rq ps) st) as [r Hr].
      enter_both Hm H1 Hr. }
    destruct (match_path product_path (path rq)) as [ps|] eqn:H2.
    { destruct (get_product_responds e (with_params rq ps) st) as [r Hr].
      enter_both Hm H2 Hr. }
    exhaust_both.
  - destruct (match_path products_path (path rq)) as [ps|] eqn:H1.
    { destruct (create_product_responds e (with_params rq ps) st)
        as (st' & r & Hr).
      enter_both Hm H1 Hr. }
    exhaust_both.
  - destruct (match_path product_path (path rq)) as [ps|] eqn:H2.
    { destruct (update_product_responds e (with_params rq ps) st)
        as (st' & r & Hr).
      enter_both Hm H2 Hr. }
    exhaust_both.
  - destruct (match_path product_path (path rq)) as [ps|] eqn:H2.
    { destruct (delete_product_responds e (with_params rq ps) st)
        as (st' & r & Hr).
      enter_both Hm H2 Hr. }
    exhaust_both.
Qed.

(** C5.  The two registrations of a route are not equivalent, although
    the later ones are what the comment of line 152 announces for the
    routes: on a create without the key the first registration, which
    carries no middleware, answers 201 and appends, where the later one
    answers 401 and leaves the collection alone; the same holds for the
    update, and on the list request the first registration answers an
    array where the later one answers an object. *)
Lemma C5_registrations_differ :
  run_chain [create_product] env0 post_without_key initial =
    (set_products initial (seed ++ [created tablet]),
     Responded {| status := 201; content := Json (VObj (created tablet)) |})
  ∧ run_chain [authenticate; validateProduct; create_product]
      env0 post_without_key initial = (initial, Responded unauthorized)
  ∧ ¬ chains_equivalent [create_product]
        [authenticate; validateProduct; create_product]
  ∧ ¬ chains_equivalent [update_product]
        [authenticate; validateProduct; update_product]
  ∧ ¬ chains_equivalent [list_products] [list_products_advanced].
Proof.
  split; [vm_compute; reflexivity|].
  split; [vm_compute; reflexivity|].
  split; [|split].
  - intros H. specialize (H env0 post_without_key initial).
    vm_compute in H. discriminate H.
  - intros H. specialize (H env0 put_with_wrong_key initial).
    vm_compute in H. discriminate H.
  - intros H. specialize (H env0 get_first_page_of_two initial).
    vm_compute in H. discriminate H.
Qed.

(** * C6: uniqueness of the ids *)

Lemma ids_app ps qs : ids (ps ++ qs) = ids ps ++ ids qs.
Proof. apply fmap_app. Qed.

Lemma ids_cons p ps : ids (p :: ps) = get p "id" :: ids ps.
Proof. reflexivity. Qed.

Lemma created_id e (b : gmap string value) :
  get (object_of [("id", VStr (uuidv4 e)); ("name", get b "name");
                  ("description", get b "description");
                  ("price", get b "price"); ("category", get b "category");
                  ("inStock", get b "inStock")]) "id" = VStr (uuidv4 e).
Proof. reflexivity. Qed.

Lemma create_keeps_unique e rq st :
  absent (uuidv4 e) (products st) = true →
  unique_ids st → unique_ids (create_product e rq st).1.
Proof.
  unfold unique_ids, create_product. cbn [fst products set_products].
  intros Hf Hu. apply absent_not_elem_of in Hf.
  rewrite ids_app, ids_cons, created_id.
  apply NoDup_app. split; [done|]. split.
  - intros v Hv ->%list_elem_of_singleton. done.
  - apply NoDup_singleton.
Qed.

Lemma update_keeps_unique e rq st :
  (∀ v index,
     body rq !! "id" = Some v →
     findIndex (has_id rq) (products st) = Some index →
     v ∉ ids (delete index (products st))) →
  unique_ids st → unique_ids (update_product e rq st).1.
Proof.
  unfold unique_ids, update_product. intros Hnew Hu.
  destruct (findIndex _ _) as [i|] eqn:Hi; [|done].
  cbn [fst products set_products].
  pose proof Hi as Hi'.
  apply findIndex_Some in Hi' as (l1 & p & l2 & Hl & <- & _ & _).
  rewrite Hl, lookup_middle', insert_middle in *. cbn [default].
  rewrite ids_app, ids_cons in *. rewrite get_spread.
  destruct (body rq !! "id") as [v|] eqn:Hb; [|done].
  specialize (Hnew v _ eq_refl eq_refl).
  rewrite delete_middle, ids_app in Hnew.
  apply not_elem_of_app in Hnew as [Hv1 Hv2].
  apply NoDup_app in Hu as (H1 & H12 & [_ H2]%NoDup_cons).
  apply NoDup_app. split; [done|]. split.
  - intros x Hx [->|Hx2]%elem_of_cons; [done|].
    apply (H12 x Hx). by right.
  - by apply NoDup_cons.
Qed.

Lemma delete_keeps_unique e rq st :
  unique_ids st → unique_ids (delete_product e rq st).1.
Proof.
  unfold unique_ids, delete_product. intros Hu.
  destruct (findIndex _ _) as [i|] eqn:Hi; [|done].
  cbn [fst products set_products].
  apply findIndex_Some in Hi as (l1 & p & l2 & Hl & <- & _ & _).
  rewrite Hl, delete_middle in *. rewrite ids_app in *.
  rewrite ids_cons in Hu.
  apply NoDup_app in Hu as (H1 & H12 & H2). apply NoDup_cons in H2 as [_ H2].
  apply NoDup_app. split; [done|]. split; [|done].
  intros v Hv Hv2. apply (H12 v Hv). by right.
Qed.

Lemma keeps_ids_step e rq st :
  keeps_ids e rq st → unique_ids st → unique_ids (serve e rq st).1.
Proof.
  unfold keeps_ids. intros Hk Hu. rewrite serve_state.
  destruct (method rq).
  - by destruct (entered rq).
  - destruct (match_path products_path (path rq)); [|done].
    by apply create_keeps_unique.
  - destruct (match_path product_path (path rq)) as [ps|]; [|done].
    apply update_keeps_unique; [|done].
    intros v index Hb Hi. cbn [body with_params] in Hb.
    rewrite Hb in Hk. by apply Hk.
  - destruct (match_path product_path (path rq)); [|done].
    by apply delete_keeps_unique.
Qed.

Lemma seed_unique : unique_ids initial.
Proof.
  unfold unique_ids. cbn. repeat (apply NoDup_cons; split);
    [| |  |apply NoDup_nil_2];
    rewrite ?not_elem_of_cons; repeat split; try discriminate;
    apply not_elem_of_nil.
Qed.

(** C6, as stated, fails: on the seeded collection, [PUT /api/products/1]
    with the key and a body that holds the five fields of a product and
    ["id": "2"] is answered 200 and leaves two products with the id ["2"].
    The request passes [authenticate] and [validateProduct] too, so the
    later registration of the route would store the same record. *)
Lemma C6_update_can_duplicate_an_id :
  ids (products (serve_all [(env0, put_id_2_on_1)] initial)) =
    [VStr "2"; VStr "2"; VStr "3"]
  ∧ (serve env0 put_id_2_on_1 initial).2 =
    {| status := 200;
       content := Json (VObj (object_of (("id", VStr "2") :: tablet))) |}
  ∧ run_chain [authenticate; validateProduct; update_product] env0
      (with_params put_id_2_on_1 {["id" := "1"]}) initial =
    ((serve env0 put_id_2_on_1 initial).1,
     Responded (serve env0 put_id_2_on_1 initial).2)
  ∧ ¬ unique_ids (serve_all [(env0, put_id_2_on_1)] initial).
Proof.
  assert (H : ids (products (serve_all [(env0, put_id_2_on_1)] initial)) =
              [VStr "2"; VStr "2"; VStr "3"]) by (vm_compute; reflexivity).
  split; [done|]. split; [vm_compute; reflexivity|].
  split; [vm_compute; reflexivity|].
  unfold unique_ids. rewrite H. intros [Hn _]%NoDup_cons.
  apply Hn. left.
Qed.

(** C6, amended.  The ids are unique in the seeded collection and stay
    unique after every sequence of requests in which each create draws a
    uuid that is not in the collection yet and no update body carries an
    [id] that another product of the collection has. *)
Theorem C6_ids_stay_unique (trace : list (env * request)) :
  all_keep_ids trace initial →
  unique_ids initial ∧ unique_ids (serve_all trace initial).
Proof.
  intros H. split; [apply seed_unique|].
  revert H. generalize seed_unique. generalize initial.
  induction trace as [|[e rq] trace IH]; intros st Hu H; simpl in *; [done|].
  destruct H as [Hk H]. apply IH; [|done].
  by apply keeps_ids_step.
Qed.

Lemma keeps_ids_update e rq st ps s :
  method rq = PUT →
  match_path product_path (path rq) = Some ps →
  body rq !! "id" = Some (VStr s) →
  (∀ index,
     findIndex (has_id (with_params rq ps)) (products st) = Some index →
     absent s (delete index (products st)) = true) →
  keeps_ids e rq st.
Proof.
  intros Hm Hp Hb H. unfold keeps_ids. rewrite Hm, Hp, Hb.
  intros index Hi. by apply absent_not_elem_of, H.
Qed.

(** A create, an update that carries a new id, an update that carries the
    id the record already has, an update without id and a delete. *)
Lemma C6_witness :
  all_keep_ids
    [(env0, post_tablet); (env0, put_id_9_on_1); (env0, put_id_2_on_2);
     (env0, put_price_on_1); (env0, delete_2)] initial
  ∧ unique_ids
      (serve_all
         [(env0, post_tablet); (env0, put_id_9_on_1); (env0, put_id_2_on_2);
          (env0, put_price_on_1); (env0, delete_2)] initial).
Proof.
  assert (all_keep_ids
            [(env0, post_tablet); (env0, put_id_9_on_1);
             (env0, put_id_2_on_2); (env0, put_price_on_1);
             (env0, delete_2)] initial) as H.
  { split; [vm_compute; reflexivity|].
    split.
    { apply (keeps_ids_update _ _ _ {["id" := "1"]} "9");
        [reflexivity..|].
      intros index Hi. vm_compute in Hi. injection Hi as <-.
      vm_compute. reflexivity. }
    split.
    { apply (keeps_ids_update _ _ _ {["id" := "2"]} "2");
        [reflexivity..|].
      intros index Hi. vm_compute in Hi. injection Hi as <-.
      vm_compute. reflexivity. }
    split; [vm_compute; exact I|].
    split; [vm_compute; exact I|exact I]. }
  split; [exact H|].
  exact (proj2 (C6_ids_stay_unique _ H)).
Defined.

(** * C7: update is a shallow merge *)

Lemma present_split rq id ps :
  absent id ps = false →
  ∃ l1 p l2, ps = l1 ++ p :: l2 ∧ absent id l1 = true ∧ get p "id" = VStr id
    ∧ findIndex (has_id (with_params rq {["id" := id]})) ps = Some (length l1)
    ∧ List.find (has_id (with_params rq {["id" := id]})) ps = Some p.
Proof.
  intros Ha.
  destruct (findIndex (has_id (with_params rq {["id" := id]})) ps)
    as [i|] eqn:Hi.
  - apply findIndex_Some in Hi as (l1 & p & l2 & -> & <- & H1 & Hp).
    exists l1, p, l2. rewrite absent_has_id in H1.
    rewrite has_id_bound in Hp. pose proof Hp as Hp'.
    apply strict_eq_string in Hp'.
    split; [done|]. split; [done|]. split; [done|].
    split; [done|by apply find_app].
  - apply findIndex_None in Hi. rewrite absent_has_id in Hi. congruence.
Qed.



(** * C8: delete *)




(** * C9: create, then get by id *)



(** * C10: reads leave the collection alone *)

Lemma list_products_advanced_state e rq st :
  (list_products_advanced e rq st).1 = st.
Proof.
  unfold list_products_advanced, respond.
  by destruct (if truthy (get (query rq) "search") then _ else _).
Qed.

(** C10.  A GET request, whatever its path and query, leaves the products
    collection as it was; and each of the five handlers registered for
    GET, reached or not, leaves the whole state as it was. *)
Theorem C10_reads_leave_the_collection_unchanged e rq st :
  method rq = GET →
  products (serve e rq st).1 = products st
  ∧ (root e rq st).1 = st
  ∧ (list_products e rq st).1 = st
  ∧ (get_product e rq st).1 = st
  ∧ (list_products_advanced e rq st).1 = st
  ∧ (product_stats e rq st).1 = st.
Proof.
  intros Hm. split.
  { rewrite serve_state, Hm. by destruct (entered rq). }
  split; [done|]. split; [done|]. split.
  { by destruct (get_product_responds e rq st) as [r ->]. }
  split; [apply list_products_advanced_state|done].
Qed.

Lemma C10_witness :
  method get_health = GET
  ∧ products (serve env0 get_health initial).1 = products initial.
Proof.
  split; [reflexivity|].
  apply (C10_reads_leave_the_collection_unchanged env0 get_health initial).
  reflexivity.
Defined.

(** * Further properties of the first registrations *)

Lemma state_eta st : set_products st (products st) = st.
Proof. by destruct st. Qed.

Lemma set_products_twice st ps qs :
  set_products (set_products st ps) qs = set_products st qs.
Proof. reflexivity. Qed.

Lemma findIndex_first {A} (f : A → bool) (l1 l2 : list A) (x : A) :
  forallb (λ x, negb (f x)) l1 = true → f x = true →
  findIndex f (l1 ++ x :: l2) = Some (length l1).
Proof.
  intros H1 Hx. induction l1 as [|y l1 IH]; simpl in *.
  - by rewrite Hx.
  - apply andb_prop in H1 as [Hy H1]. apply negb_true_iff in Hy.
    rewrite Hy, IH by done. done.
Qed.







(** X3.  The record a create stores has exactly the six fields [id],
    [name], [description], [price], [category] and [inStock]: its [id] is
    the generated uuid even when the body carries an [id], and any other
    field of the body is dropped. *)
Theorem X3_create_stores_six_fields e rq st ps :
  method rq = POST →
  match_path products_path (path rq) = Some ps →
  ∃ p,
    serve e rq st =
      (set_products st (products st ++ [p]),
       {| status := 201; content := Json (VObj p) |})
    ∧ dom p = record_fields
    ∧ p !! "id" = Some (VStr (uuidv4 e)).
Proof.
  intros Hm Hp. eexists. split.
  { eapply serve_POST_products; [done..|]. reflexivity. }
  split; [|reflexivity].
  unfold object_of, record_fields. cbn [foldl fst snd].
  rewrite !dom_insert_L, dom_empty_L. set_solver.
Qed.

Lemma X3_witness :
  method post_numeric_name = POST
  ∧ match_path products_path (path post_numeric_name) = Some ∅
  ∧ ∃ p,
      serve env0 post_numeric_name initial =
        (set_products initial (seed ++ [p]),
         {| status := 201; content := Json (VObj p) |})
      ∧ dom p = record_fields
      ∧ p !! "id" = Some (VStr (uuidv4 env0)).
Proof.
  split; [reflexivity|]. split; [reflexivity|].
  apply (X3_create_stores_six_fields env0 post_numeric_name initial ∅);
    reflexivity.
Defined.

(** X4.  [PUT /api/products/:id] with an id that no product has answers
    404 [Product not found] and leaves the state alone, whatever the body
    and the headers. *)
Theorem X4_update_of_a_missing_id e rq st id :
  method rq = PUT →
  match_path product_path (path rq) = Some {["id" := id]} →
  absent id (products st) = true →
  serve e rq st = (st, product_not_found).
Proof.
  intros Hm Hp Ha. eapply serve_PUT_product; [done..|].
  unfold update_product.
  rewrite (proj2 (findIndex_None _ _)); [done|].
  by rewrite absent_has_id.
Qed.

Lemma X4_witness :
  method put_tablet_on_7 = PUT
  ∧ match_path product_path (path put_tablet_on_7) = Some {["id" := "7"]}
  ∧ absent "7" (products initial) = true
  ∧ serve env0 put_tablet_on_7 initial = (initial, product_not_found).
Proof.
  split; [reflexivity|]. split; [reflexivity|]. split; [reflexivity|].
  apply (X4_update_of_a_missing_id env0 put_tablet_on_7 initial "7");
    reflexivity.
Defined.

Lemma update_product_twice e e' rq st :
  body rq !! "id" = None →
  update_product e' rq (update_product e rq st).1 = update_product e rq st.
Proof.
  intros Hb. unfold update_product.
  destruct (findIndex (has_id rq) (products st)) as [i|] eqn:Hi.
  - cbn [fst products set_products].
    apply findIndex_Some in Hi as (l1 & p & l2 & Hl & <- & H1 & Hp).
    rewrite Hl, lookup_middle', insert_middle. cbn [default from_option id].
    rewrite findIndex_first; [|done|].
    + rewrite lookup_middle', insert_middle. cbn [default from_option id].
      rewrite set_products_twice.
      assert (spread (spread p (body rq)) (body rq) = spread p (body rq))
        as ->; [|done].
      unfold spread. by rewrite (assoc_L (∪)), (idemp_L (∪)).
    + unfold has_id in *. by rewrite get_spread, Hb.
  - cbn [fst respond]. by rewrite Hi.
Qed.

(** X5.  An update whose body carries no [id] is idempotent: sending the
    same [PUT /api/products/:id] a second time gives the same answer and
    leaves the state the first one left. *)
Theorem X5_update_is_idempotent e e' rq st ps :
  method rq = PUT →
  match_path product_path (path rq) = Some ps →
  body rq !! "id" = None →
  serve e' rq (serve e rq st).1 = serve e rq st.
Proof.
  intros Hm Hp Hb.
  destruct (update_product_responds e (with_params rq ps) st)
    as (st1 & r1 & H1).
  pose proof (update_product_twice e e' (with_params rq ps) st Hb) as H2.
  rewrite H1 in H2. cbn [fst] in H2.
  rewrite (serve_PUT_product e rq st ps st1 r1) by done. cbn [fst].
  by apply (serve_PUT_product e' rq st1 ps st1 r1).
Qed.

Lemma X5_witness :
  method put_price_on_1 = PUT
  ∧ match_path product_path (path put_price_on_1) = Some {["id" := "1"]}
  ∧ body put_price_on_1 !! "id" = None
  ∧ serve env0 put_price_on_1 (serve env0 put_price_on_1 initial).1
    = serve env0 put_price_on_1 initial.
Proof.
  split; [reflexivity|]. split; [reflexivity|]. split; [reflexivity|].
  apply (X5_update_is_idempotent env0 env0 put_price_on_1 initial
           {["id" := "1"]}); reflexivity.
Defined.

(** X6.  A create followed by a delete of the returned id restores the
    state: when the generated uuid was not in the collection,
    [DELETE /api/products/:id] with that uuid answers 204 and leaves the
    state exactly as it was before the create. *)
Theorem X6_create_then_delete e e' rq rq' st ps :
  method rq = POST →
  match_path products_path (path rq) = Some ps →
  absent (uuidv4 e) (products st) = true →
  method rq' = DELETE →
  match_path product_path (path rq') = Some {["id" := uuidv4 e]} →
  serve e' rq' (serve e rq st).1 =
    (st, {| status := 204; content := NoContent |}).
Proof.
  intros Hm Hp Ha Hm' Hp'.
  erewrite (serve_POST_products e rq st) by (done || reflexivity).
  cbn [fst]. eapply serve_DELETE_product; [done..|].
  unfold delete_product. cbn [products set_products].
  rewrite findIndex_first.
  - rewrite delete_middle, app_nil_r, set_products_twice, state_eta. done.
  - by rewrite absent_has_id.
  - rewrite has_id_bound. by apply strict_eq_string.
Qed.

Lemma X6_witness :
  method post_tablet = POST
  ∧ match_path products_path (path post_tablet) = Some ∅
  ∧ absent (uuidv4 env0) (products initial) = true
  ∧ method delete_created = DELETE
  ∧ match_path product_path (path delete_created)
    = Some {["id" := uuidv4 env0]}
  ∧ serve env0 delete_created (serve env0 post_tablet initial).1 =
      (initial, {| status := 204; content := NoContent |}).
Proof.
  split; [reflexivity|]. split; [reflexivity|]. split; [reflexivity|].
  split; [reflexivity|]. split; [reflexivity|].
  apply (X6_create_then_delete env0 env0 post_tablet delete_created initial ∅);
    reflexivity.
Defined.

(** * Further properties of the router and the middleware *)

Lemma entered_state e rq st :
  entered rq = true → console (serve e rq st).1 = console st.
Proof.
  intros He. rewrite serve_state. pose proof He as He'.
  unfold entered in He. destruct (method rq).
  - by rewrite He'.
  - apply bool_decide_eq_true in He as [ps ->]. done.
  - apply bool_decide_eq_true in He as [ps ->].
    unfold update_product. by destruct (findIndex _ _).
  - apply bool_decide_eq_true in He as [ps ->].
    unfold delete_product. by destruct (findIndex _ _).
Qed.

(** X7.  The logger, registered after the routes, writes a line only for
    a request that enters none of them: a request that enters a route
    leaves the console as it was; any other request appends the line
    [[timestamp] METHOD url], leaves the products alone and is answered by
    the 404 of Express. *)
Theorem X7_only_unrouted_requests_are_logged e rq st :
  (entered rq = true → console (serve e rq st).1 = console st)
  ∧ (entered rq = false →
     serve e rq st =
       ({| products := products st;
           console := console st ++ [log_line e rq] |},
        {| status := 404; content := FinalHandler |})).
Proof.
  split; [apply entered_state|].
  intros He. by rewrite serve_not_entered.
Qed.

Lemma X7_witness :
  entered get_1 = true
  ∧ console (serve env0 get_1 initial).1 = []
  ∧ entered get_health = false
  ∧ serve env0 get_health initial =
      ({| products := seed;
          console := ["[2024-01-01T00:00:00.000Z] GET /health"] |},
       {| status := 404; content := FinalHandler |}).
Proof.
  split; [reflexivity|]. split.
  { apply (proj1 (X7_only_unrouted_requests_are_logged env0 get_1 initial)).
    reflexivity. }
  split; [reflexivity|].
  apply (proj2 (X7_only_unrouted_requests_are_logged env0 get_health initial)).
  reflexivity.
Defined.

(** X9.  In the chain [authenticate, validateProduct, handler] the key is
    checked before the body: without the key the answer is 401 even when
    the body is invalid, with the key and an invalid body it is 400, in
    both cases the handler does not run and the state is left alone, and
    with the key and a valid body the chain is the handler. *)
Theorem X9_key_is_checked_before_the_body (h : handler) e rq st :
  (has_api_key rq = false →
   run_chain [authenticate; validateProduct; h] e rq st
   = (st, Responded unauthorized))
  ∧ (has_api_key rq = true → valid_product_data (body rq) = false →
     run_chain [authenticate; validateProduct; h] e rq st
     = (st, Responded invalid_product))
  ∧ (has_api_key rq = true → valid_product_data (body rq) = true →
     run_chain [authenticate; validateProduct; h] e rq st
     = run_chain [h] e rq st).
Proof.
  rewrite guarded_chain. repeat split.
  - by intros ->.
  - by intros -> ->.
  - by intros -> ->.
Qed.

Lemma X9_witness :
  has_api_key post_without_key = false
  ∧ run_chain [authenticate; validateProduct; create_product]
      env0 post_without_key initial = (initial, Responded unauthorized)
  ∧ has_api_key post_without_description = true
  ∧ valid_product_data (body post_without_description) = false
  ∧ run_chain [authenticate; validateProduct; create_product]
      env0 post_without_description initial
    = (initial, Responded invalid_product).
Proof.
  destruct (X9_key_is_checked_before_the_body create_product env0
              post_without_key initial) as (H1 & _ & _).
  destruct (X9_key_is_checked_before_the_body create_product env0
              post_without_description initial) as (_ & H2 & _).
  split; [reflexivity|]. split; [exact (H1 eq_refl)|].
  split; [reflexivity|]. split; [reflexivity|].
  exact (H2 eq_refl eq_refl).
Defined.

(** X10.  An error raised at any layer of the application is answered by
    the error-handling middleware, every layer in between being skipped:
    the status and name of a [NotFoundError] (404) or [ValidationError]
    (400), and 500 [InternalServerError] for any other error, each with
    the message of the error; the state is left alone. *)
Theorem X10_errors_reach_the_error_handler (k : nat) err e rq st :
  (k < length app)%nat →
  handle (drop k app) (Some err) e rq st = (st, error_answer err).
Proof.
  intros Hk. unfold app in *.
  do 13 (destruct k as [|k]; [by destruct err|]).
  simpl in Hk. lia.
Qed.

Lemma X10_witness :
  (8 < length app)%nat
  ∧ handle (drop 8 app) (Some (TypeError "boom")) env0 get_products initial
    = (initial, error_answer (TypeError "boom")).
Proof.
  split; [cbv; lia|].
  apply (X10_errors_reach_the_error_handler 8). cbv; lia.
Defined.

Lemma toLowerCase_empty s : toLowerCase s = "" → s = "".
Proof. by destruct s. Qed.




(** * Further properties of the filtering list handler *)

Lemma list_products_advanced_steps e rq st :
  list_products_advanced e rq st =
    let page := get_default (query rq) "page" (VNum 1) in
    let limit := get_default (query rq) "limit" (VNum 10) in
    match by_search (get (query rq) "search")
            (by_category (get (query rq) "category") (products st)) with
    | inl err => (st, Threw err)
    | inr result =>
        (st, Responded
               (listing (Z.of_nat (length result))
                  (number (parseInt page)) (number (parseInt limit))
                  (slice result (page_start page limit)
                     (page_end page limit))))
    end.
Proof. reflexivity. Qed.

Section Slice.
Context {A : Type}.
Implicit Types l : list A.

Lemma slice_take_drop l (a n : Z) :
  0 ≤ a → 0 ≤ n →
  slice l (Some a) (Some (a + n)) = take (Z.to_nat n) (drop (Z.to_nat a) l).
Proof.
  intros Ha Hn. unfold slice. cbn [default from_option id].
  rewrite (proj2 (Z.ltb_ge a 0)), (proj2 (Z.ltb_ge (a + n) 0)) by lia.
  destruct (decide (Z.of_nat (length l) ≤ a)) as [Hge|Hlt].
  - rewrite (drop_ge l (Z.to_nat a)) by lia.
    rewrite (drop_ge l (Z.to_nat (a `min` _))) by lia.
    by rewrite !take_nil.
  - rewrite (Z.min_l a) by lia.
    destruct (decide (a + n ≤ Z.of_nat (length l))).
    + rewrite Z.min_l by lia. do 2 f_equal. lia.
    + rewrite Z.min_r by lia.
      rewrite !take_ge; [done|rewrite length_drop; lia..].
Qed.

Lemma slice_nan l : slice l None None = [].
Proof.
  unfold slice. cbn [default from_option id]. simpl.
  rewrite Z.min_l by lia. done.
Qed.

Lemma slice_sublist l a b : slice l a b `sublist_of` l.
Proof.
  unfold slice. etransitivity; [apply sublist_take|apply sublist_drop].
Qed.

Lemma filter_sublist (f : A → bool) l : List.filter f l `sublist_of` l.
Proof.
  induction l as [|x l IH]; simpl; [done|].
  destruct (f x); by constructor.
Qed.

Lemma filter_Forall (f : A → bool) l :
  Forall (λ x, f x = true) (List.filter f l).
Proof.
  induction l as [|x l IH]; simpl; [done|].
  destruct (f x) eqn:E; [by constructor|done].
Qed.

Context {E : Type} (f : A → E + bool).

(** When the traversal ends, no callback threw, and the result is the
    filter by the values the callback returned. *)
Lemma filter_throwing_inr l l' :
  filter_throwing f l = inr l' →
  Forall (λ x, ∃ b, f x = inr b) l
  ∧ l' = List.filter (λ x, match f x with inr b => b | inl _ => false end) l.
Proof.
  revert l'. induction l as [|x l IH]; intros l'; simpl.
  - intros [= <-]. done.
  - destruct (f x) as [err|b] eqn:Hx; [done|].
    destruct (filter_throwing f l) as [err|ys]; [done|].
    destruct (IH ys eq_refl) as [Hall ->]. intros [= <-].
    split; [constructor; eauto|]. by destruct b.
Qed.

(** When the traversal is aborted, the error is the one a callback
    threw. *)
Lemma filter_throwing_inl l err :
  filter_throwing f l = inl err → ∃ x, x ∈ l ∧ f x = inl err.
Proof.
  induction l as [|x l IH]; simpl; [done|].
  destruct (f x) as [err'|b] eqn:Hx.
  - intros [= <-]. exists x. split; [left|done].
  - destruct (filter_throwing f l) as [err'|ys]; [|done].
    intros [= <-]. destruct (IH eq_refl) as (y & Hy & Hf).
    exists y. split; [by right|done].
Qed.

Lemma filter_throwing_throws l x err :
  x ∈ l → f x = inl err → ∃ err', filter_throwing f l = inl err'.
Proof.
  intros Hx Hf. destruct (filter_throwing f l) as [err'|l'] eqn:Hl; [eauto|].
  apply filter_throwing_inr in Hl as [Hall _].
  rewrite Forall_forall in Hall. destruct (Hall x Hx) as [b Hb]. congruence.
Qed.

Lemma filter_throwing_ext (g : A → E + bool) l :
  (∀ x, f x = g x) → filter_throwing f l = filter_throwing g l.
Proof.
  intros Hfg. induction l as [|x l IH]; simpl; [done|].
  by rewrite Hfg, IH.
Qed.
End Slice.

Lemma truthy_string s : truthy (VStr s) = true ↔ s ≠ "".
Proof.
  simpl. rewrite negb_true_iff. apply String.eqb_neq.
Qed.

Lemma name_includes_string s p b :
  name_includes (VStr s) p = inr b → b = name_matches s p.
Proof.
  unfold name_includes, name_matches.
  destruct (get p "name"); intros [= <-]; done.
Qed.

Lemma name_includes_error search p err :
  name_includes search p = inl err → ∃ m, err = TypeError m.
Proof.
  unfold name_includes.
  destruct (get p "name"); try (intros [= <-]; eauto).
  destruct search; intros [= <-]; eauto.
Qed.

Lemma name_includes_not_a_string search p :
  not_a_string (get p "name") = true →
  ∃ m, name_includes search p = inl (TypeError m).
Proof.
  unfold name_includes. destruct (get p "name"); try done; eauto.
Qed.

Lemma name_includes_inr s p b :
  name_includes (VStr s) p = inr b → ∃ n, get p "name" = VStr n.
Proof.
  unfold name_includes. destruct (get p "name"); try done; eauto.
Qed.

Lemma by_search_string s ps result :
  s ≠ "" → by_search (VStr s) ps = inr result →
  result = List.filter (name_matches s) ps
  ∧ Forall (λ p, ∃ n, get p "name" = VStr n) ps.
Proof.
  intros Hs. unfold by_search. rewrite (proj2 (truthy_string s) Hs).
  intros [Hall ->]%filter_throwing_inr. split.
  - induction ps as [|p ps IH]; simpl; [done|].
    apply Forall_cons in Hall as [[b Hb] Hall]. rewrite Hb.
    rewrite <- (name_includes_string _ _ _ Hb), IH by done. done.
  - eapply Forall_impl; [exact Hall|].
    intros p [b Hb]. by eapply name_includes_inr.
Qed.

Lemma by_search_sublist search ps result :
  by_search search ps = inr result → result `sublist_of` ps.
Proof.
  unfold by_search. destruct (truthy search).
  - intros [_ ->]%filter_throwing_inr. apply filter_sublist.
  - by intros [= <-].
Qed.

Lemma by_category_sublist category ps : by_category category ps `sublist_of` ps.
Proof.
  unfold by_category. destruct (truthy category); [apply filter_sublist|done].
Qed.

Lemma advanced_responded e rq st st' r :
  list_products_advanced e rq st = (st', Responded r) →
  ∃ result,
    by_search (get (query rq) "search")
      (by_category (get (query rq) "category") (products st)) = inr result
    ∧ r = listing (Z.of_nat (length result))
            (number (parseInt (get_default (query rq) "page" (VNum 1))))
            (number (parseInt (get_default (query rq) "limit" (VNum 10))))
            (slice result
               (page_start (get_default (query rq) "page" (VNum 1))
                  (get_default (query rq) "limit" (VNum 10)))
               (page_end (get_default (query rq) "page" (VNum 1))
                  (get_default (query rq) "limit" (VNum 10)))).
Proof.
  rewrite list_products_advanced_steps. cbv zeta.
  destruct (by_search _ _) as [err|result]; [done|].
  intros [= _ <-]. eauto.
Qed.

Lemma reads_as_parseInt v z : reads_as v z = true → parseInt v = Some z.
Proof.
  unfold reads_as.
  destruct v; try done;
    intros [[H _]%andb_prop _]%andb_prop; by apply bool_decide_eq_true in H.
Qed.

(** X12.  When the filtering list handler answers a request whose
    [category] is a non-empty string, [total] counts a list of products
    that all have exactly that category, taken in order from the
    collection, and the page is a part of that list; without a [search]
    the list is all the products of the category. *)
Theorem X12_category_filter e rq st st' r c :
  list_products_advanced e rq st = (st', Responded r) →
  get (query rq) "category" = VStr c → c ≠ "" →
  ∃ result items page limit,
    st' = st
    ∧ r = listing (Z.of_nat (length result)) page limit items
    ∧ items `sublist_of` result
    ∧ result `sublist_of` List.filter (has_category c) (products st)
    ∧ Forall (λ p, get p "category" = VStr c) result
    ∧ (truthy (get (query rq) "search") = false →
       result = List.filter (has_category c) (products st)).
Proof.
  intros Hr Hc Hne.
  assert (st' = st) as ->.
  { pose proof (list_products_advanced_state e rq st) as Hst.
    by rewrite Hr in Hst. }
  apply advanced_responded in Hr as (result & Hres & ->).
  rewrite Hc in Hres. unfold by_category in Hres.
  rewrite (proj2 (truthy_string c) Hne) in Hres.
  change (λ p, strict_eq (get p "category") (VStr c))
    with (has_category c) in Hres.
  pose proof (by_search_sublist _ _ _ Hres) as Hsub.
  eexists result, _, _, _. split; [done|]. split; [reflexivity|].
  split; [apply slice_sublist|]. split; [done|]. split.
  - apply Forall_forall. intros p Hp. apply strict_eq_string.
    pose proof (filter_Forall (has_category c) (products st)) as HF.
    rewrite Forall_forall in HF. apply HF. by eapply elem_of_sublist.
  - intros Hs. unfold by_search in Hres. rewrite Hs in Hres.
    by injection Hres.
Qed.

Lemma X12_witness :
  list_products_advanced env0 get_electronics initial
  = (initial,
     Responded (listing 2 (VNum 1) (VNum 10) [laptop; smartphone]))
  ∧ get (query get_electronics) "category" = VStr "electronics"
  ∧ "electronics" ≠ ""
  ∧ ∃ result items page limit,
      initial = initial
      ∧ listing 2 (VNum 1) (VNum 10) [laptop; smartphone]
        = listing (Z.of_nat (length result)) page limit items
      ∧ items `sublist_of` result
      ∧ result `sublist_of`
          List.filter (has_category "electronics") (products initial)
      ∧ Forall (λ p, get p "category" = VStr "electronics") result
      ∧ (truthy (get (query get_electronics) "search") = false →
         result = List.filter (has_category "electronics") (products initial)).
Proof.
  split; [vm_compute; reflexivity|]. split; [reflexivity|].
  split; [discriminate|].
  apply (X12_category_filter env0 get_electronics initial initial _
           "electronics");
    [vm_compute; reflexivity|reflexivity|discriminate].
Defined.

(** X13.  When the filtering list handler answers a request whose
    [search] is a non-empty ASCII string and which has no [category],
    over a collection whose names are ASCII, every product of the
    collection has a string for [name], [total] counts the products whose
    name contains the search string, case apart, and the page is a part
    of them. *)
Theorem X13_search_filter e rq st st' r s :
  list_products_advanced e rq st = (st', Responded r) →
  get (query rq) "search" = VStr s → s ≠ "" →
  is_ascii s = true →
  ascii_names (products st) = true →
  truthy (get (query rq) "category") = false →
  ∃ items page limit,
    r = listing
          (Z.of_nat (length (List.filter (name_matches s) (products st))))
          page limit items
    ∧ items `sublist_of` List.filter (name_matches s) (products st)
    ∧ Forall (λ p, ∃ n, get p "name" = VStr n) (products st).
Proof.
  intros Hr Hs Hne _ _ Hc.
  apply advanced_responded in Hr as (result & Hres & ->).
  rewrite Hs in Hres. unfold by_category in Hres. rewrite Hc in Hres.
  apply by_search_string in Hres as [-> Hall]; [|done].
  eexists _, _, _. split; [reflexivity|]. split; [apply slice_sublist|done].
Qed.

Lemma X13_witness :
  list_products_advanced env0 get_search_phone initial
  = (initial, Responded (listing 1 (VNum 1) (VNum 10) [smartphone]))
  ∧ get (query get_search_phone) "search" = VStr "PHONE"
  ∧ "PHONE" ≠ ""
  ∧ is_ascii "PHONE" = true
  ∧ ascii_names (products initial) = true
  ∧ truthy (get (query get_search_phone) "category") = false
  ∧ ∃ items page limit,
      listing 1 (VNum 1) (VNum 10) [smartphone]
      = listing
          (Z.of_nat
             (length (List.filter (name_matches "PHONE") (products initial))))
          page limit items
      ∧ items `sublist_of`
          List.filter (name_matches "PHONE") (products initial)
      ∧ Forall (λ p, ∃ n, get p "name" = VStr n) (products initial).
Proof.
  split; [vm_compute; reflexivity|]. split; [reflexivity|].
  split; [discriminate|]. split; [reflexivity|]. split; [reflexivity|].
  split; [reflexivity|].
  apply (X13_search_filter env0 get_search_phone initial initial _ "PHONE");
    [vm_compute; reflexivity|reflexivity|discriminate|reflexivity
    |reflexivity|reflexivity].
Defined.

(** X14.  With no [category] and no [search], a page that reads as a
    number [p >= 1] and a limit that reads as a number [l >= 0] (both at
    most 67108864), the filtering list handler answers 200 with the count
    of the whole collection as [total] and, as [products], the [l]
    products that follow the first [(p - 1) * l]: fewer when the
    collection ends before, none when it ends before the page starts. *)
Theorem X14_pagination e rq st (p l : Z) :
  truthy (get (query rq) "category") = false →
  truthy (get (query rq) "search") = false →
  reads_as (get_default (query rq) "page" (VNum 1)) p = true →
  reads_as (get_default (query rq) "limit" (VNum 10)) l = true →
  1 ≤ p → 0 ≤ l →
  list_products_advanced e rq st =
    (st, Responded
           (listing (Z.of_nat (length (products st))) (VNum p) (VNum l)
              (take (Z.to_nat l)
                 (drop (Z.to_nat ((p - 1) * l)) (products st))))).
Proof.
  intros Hc Hs Hp%reads_as_parseInt Hl%reads_as_parseInt Hp1 Hl0.
  rewrite list_products_advanced_steps. cbv zeta.
  unfold by_category, by_search, page_end, page_start.
  rewrite Hc, Hs, Hp, Hl. cbn [mbind option_bind number].
  rewrite slice_take_drop by nia. done.
Qed.

Lemma X14_witness :
  truthy (get (query get_first_page_of_two) "category") = false
  ∧ truthy (get (query get_first_page_of_two) "search") = false
  ∧ reads_as (get_default (query get_first_page_of_two) "page" (VNum 1)) 1
    = true
  ∧ reads_as (get_default (query get_first_page_of_two) "limit" (VNum 10)) 2
    = true
  ∧ list_products_advanced env0 get_first_page_of_two initial =
      (initial,
       Responded
         (listing (Z.of_nat (length (products initial))) (VNum 1) (VNum 2)
            (take (Z.to_nat 2)
               (drop (Z.to_nat ((1 - 1) * 2)) (products initial))))).
Proof.
  split; [reflexivity|]. split; [reflexivity|]. split; [reflexivity|].
  split; [reflexivity|].
  apply (X14_pagination env0 get_first_page_of_two initial 1 2);
    (reflexivity || lia).
Defined.

(** X15.  A [page] or a [limit] that does not start with a number is not
    an error.  When the filtering list handler answers a request whose
    [page] and [limit] are strings or absent and whose [page] is an ASCII
    string that does not read as a number, the status
    is 200, [products] is empty and [page] is echoed as [NaN]; likewise,
    when [limit] is such a string, [products] is empty and [limit] is
    echoed as [NaN]. *)
Theorem X15_unreadable_page_or_limit e rq st st' r :
  list_products_advanced e rq st = (st', Responded r) →
  scalar (get (query rq) "page") = true →
  scalar (get (query rq) "limit") = true →
  (∀ s, get (query rq) "page" = VStr s → is_ascii s = true →
        parseInt (VStr s) = None →
        ∃ total limit, r = listing total VNaN limit [])
  ∧ (∀ s, get (query rq) "limit" = VStr s → is_ascii s = true →
          parseInt (VStr s) = None →
          ∃ total page, r = listing total page VNaN []).
Proof.
  intros Hr _ _. apply advanced_responded in Hr as (result & _ & ->).
  unfold page_end, page_start, get_default. split.
  - intros s -> _ ->. cbn [mbind option_bind number].
    rewrite slice_nan. eauto.
  - intros s -> _ ->.
    destruct (parseInt _); cbn [mbind option_bind number];
      rewrite slice_nan; eauto.
Qed.

Lemma X15_witness :
  list_products_advanced env0 get_page_two_in_letters initial
  = (initial, Responded (listing 3 VNaN (VNum 10) []))
  ∧ scalar (get (query get_page_two_in_letters) "page") = true
  ∧ scalar (get (query get_page_two_in_letters) "limit") = true
  ∧ get (query get_page_two_in_letters) "page" = VStr "two"
  ∧ is_ascii "two" = true
  ∧ parseInt (VStr "two") = None
  ∧ ∃ total limit, listing 3 VNaN (VNum 10) [] = listing total VNaN limit [].
Proof.
  split; [vm_compute; reflexivity|]. split; [reflexivity|].
  split; [reflexivity|]. split; [reflexivity|]. split; [reflexivity|].
  split; [reflexivity|].
  apply (proj1 (X15_unreadable_page_or_limit env0 get_page_two_in_letters
                  initial initial _ ltac:(vm_compute; reflexivity)
                  eq_refl eq_refl) "two");
    reflexivity.
Defined.

(** X16.  A request without [page] and [limit] is answered by the
    filtering list handler as the same request with [page=1&limit=10]. *)
Theorem X16_default_page_and_limit e rq st :
  query rq !! "page" = None → query rq !! "limit" = None →
  list_products_advanced e rq st =
    list_products_advanced e
      (with_query rq (<["page" := VStr "1"]> (<["limit" := VStr "10"]> (query rq))))
      st.
Proof.
  intros Hp Hl. rewrite !list_products_advanced_steps.
  cbn [query with_query]. unfold get_default, get.
  rewrite Hp, Hl.
  rewrite lookup_insert_eq.
  rewrite (lookup_insert_ne _ "page" "limit"), lookup_insert_eq by done.
  rewrite !(lookup_insert_ne _ "page" "search") by done.
  rewrite !(lookup_insert_ne _ "limit" "search") by done.
  rewrite !(lookup_insert_ne _ "page" "category") by done.
  rewrite !(lookup_insert_ne _ "limit" "category") by done.
  reflexivity.
Qed.

Lemma X16_witness :
  query get_products !! "page" = None
  ∧ query get_products !! "limit" = None
  ∧ list_products_advanced env0 get_products initial =
      list_products_advanced env0
        (with_query get_products
           (<["page" := VStr "1"]> (<["limit" := VStr "10"]> (query get_products))))
        initial.
Proof.
  split; [reflexivity|]. split; [reflexivity|].
  apply (X16_default_page_and_limit env0 get_products initial); reflexivity.
Defined.

Lemma in_by_category category ps p :
  p ∈ ps →
  (truthy category = true → strict_eq (get p "category") category = true) →
  p ∈ by_category category ps.
Proof.
  intros Hp Hc. unfold by_category. destruct (truthy category); [|done].
  apply list_elem_of_In, filter_In. split; [by apply list_elem_of_In|auto].
Qed.

Lemma advanced_throws e rq st p :
  truthy (get (query rq) "search") = true →
  p ∈ by_category (get (query rq) "category") (products st) →
  not_a_string (get p "name") = true →
  ∃ m, list_products_advanced e rq st = (st, Threw (TypeError m)).
Proof.
  intros Hs Hp Hn. rewrite list_products_advanced_steps. cbv zeta.
  unfold by_search. rewrite Hs.
  destruct (name_includes_not_a_string (get (query rq) "search") p Hn)
    as [m Hm].
  destruct (filter_throwing_throws _ _ _ _ Hp Hm) as [err Herr].
  rewrite Herr.
  apply filter_throwing_inl in Herr as (x & _ & Hx).
  apply name_includes_error in Hx as [m' ->]. eauto.
Qed.

(** X17.  The search of the filtering list handler does not distinguish
    upper and lower case: two requests that differ only by the case of
    the letters of [search] get the same answer. *)
Theorem X17_search_ignores_case e rq st s s' :
  get (query rq) "search" = VStr s →
  toLowerCase s' = toLowerCase s →
  list_products_advanced e
    (with_query rq (<["search" := VStr s']> (query rq))) st
  = list_products_advanced e rq st.
Proof.
  intros Hs Hl. rewrite !list_products_advanced_steps.
  cbn [query with_query products]. unfold get_default, get in *.
  rewrite lookup_insert_eq.
  rewrite !(lookup_insert_ne _ "search" "page") by done.
  rewrite !(lookup_insert_ne _ "search" "limit") by done.
  rewrite !(lookup_insert_ne _ "search" "category") by done.
  cbn [default from_option id].
  destruct (query rq !! "search") as [v|]; [|done].
  cbn [default from_option id] in Hs. subst v.
  assert (by_search (VStr s')
            (by_category (default VUndefined (query rq !! "category"))
               (products st))
          = by_search (VStr s)
              (by_category (default VUndefined (query rq !! "category"))
                 (products st))) as ->; [|done].
  unfold by_search.
  assert (truthy (VStr s') = truthy (VStr s)) as ->.
  { simpl. f_equal. destruct s, s'; done. }
  destruct (truthy (VStr s)); [|done].
  apply filter_throwing_ext. intros p. unfold name_includes.
  destruct (get p "name"); try done. by rewrite Hl.
Qed.

Lemma X17_witness :
  get (query get_search_phone) "search" = VStr "PHONE"
  ∧ toLowerCase "Phone" = toLowerCase "PHONE"
  ∧ list_products_advanced env0
      (with_query get_search_phone
         (<["search" := VStr "Phone"]> (query get_search_phone))) initial
    = list_products_advanced env0 get_search_phone initial.
Proof.
  split; [reflexivity|]. split; [reflexivity|].
  apply (X17_search_ignores_case env0 get_search_phone initial "PHONE" "Phone");
    reflexivity.
Defined.

(** X18.  The search of the filtering list handler throws on a product
    without a string for [name]: when [search] is truthy and a product
    that passes the category filter has a [name] that is missing, null, a
    number, a boolean, an array or an object, the handler raises a
    [TypeError] and writes no answer; the state is left alone. *)
Theorem X18_search_throws_on_a_bad_name e rq st p :
  truthy (get (query rq) "search") = true →
  p ∈ products st →
  (truthy (get (query rq) "category") = true →
   strict_eq (get p "category") (get (query rq) "category") = true) →
  not_a_string (get p "name") = true →
  ∃ m, list_products_advanced e rq st = (st, Threw (TypeError m)).
Proof.
  intros Hs Hp Hc Hn. eapply advanced_throws; [done| |done].
  by apply in_by_category.
Qed.

Lemma X18_witness :
  truthy (get (query get_search_phone) "search") = true
  ∧ not_a_string (get (delete "name" laptop) "name") = true
  ∧ ∃ m,
      list_products_advanced env0 get_search_phone
        (set_products initial [delete "name" laptop])
      = (set_products initial [delete "name" laptop], Threw (TypeError m)).
Proof.
  split; [reflexivity|]. split; [reflexivity|].
  apply (X18_search_throws_on_a_bad_name env0 get_search_phone
           (set_products initial [delete "name" laptop])
           (delete "name" laptop)).
  - reflexivity.
  - left.
  - discriminate.
  - reflexivity.
Defined.

(** X19.  The validation does not protect the search: a create whose
    body passes [authenticate] and [validateProduct] with a [name] that
    is truthy but not a string (a number, an array, an object) is stored
    with status 201, and from then on every request with a truthy
    [search] and no [category] makes the filtering list handler raise a
    [TypeError]. *)
Theorem X19_a_valid_body_can_break_the_search e e' rq rq' st :
  has_api_key rq = true →
  valid_product_data (body rq) = true →
  not_a_string (get (body rq) "name") = true →
  truthy (get (query rq') "search") = true →
  truthy (get (query rq') "category") = false →
  ∃ st' r m,
    run_chain [authenticate; validateProduct; create_product] e rq st
    = (st', Responded r)
    ∧ status r = 201
    ∧ list_products_advanced e' rq' st' = (st', Threw (TypeError m)).
Proof.
  intros Hk Hv Hn Hs Hc.
  set (p := object_of
              [("id", VStr (uuidv4 e)); ("name", get (body rq) "name");
               ("description", get (body rq) "description");
               ("price", get (body rq) "price");
               ("category", get (body rq) "category");
               ("inStock", get (body rq) "inStock")]).
  destruct (advanced_throws e' rq' (set_products st (products st ++ [p])) p)
    as [m Hm].
  - done.
  - apply in_by_category; [|by rewrite Hc].
    cbn [products set_products]. apply elem_of_app. right. left.
  - exact Hn.
  - exists (set_products st (products st ++ [p])),
      {| status := 201; content := Json (VObj p) |}, m.
    split; [|split; [reflexivity|exact Hm]].
    rewrite guarded_chain, Hk, Hv. reflexivity.
Qed.

Lemma X19_witness :
  has_api_key post_numeric_name = true
  ∧ valid_product_data (body post_numeric_name) = true
  ∧ not_a_string (get (body post_numeric_name) "name") = true
  ∧ truthy (get (query get_search_phone) "search") = true
  ∧ truthy (get (query get_search_phone) "category") = false
  ∧ ∃ st' r m,
      run_chain [authenticate; validateProduct; create_product]
        env0 post_numeric_name initial = (st', Responded r)
      ∧ status r = 201
      ∧ list_products_advanced env0 get_search_phone st'
        = (st', Threw (TypeError m)).
Proof.
  split; [reflexivity|]. split; [reflexivity|]. split; [reflexivity|].
  split; [reflexivity|]. split; [reflexivity|].
  apply (X19_a_valid_body_can_break_the_search env0 env0 post_numeric_name
           get_search_phone initial); reflexivity.
Defined.

(** * Further properties of the stats handler *)

Lemma plain_categories_Forall ps :
  plain_categories ps = true →
  Forall (λ p, to_string (get p "category") ∉ object_prototype) ps.
Proof.
  unfold plain_categories. rewrite forallb_forall, Forall_forall.
  intros H p Hp. apply list_elem_of_In, H in Hp.
  destruct (get p "category"); try done.
  by apply bool_decide_eq_true in Hp.
Qed.

(** X20.  When every category of the collection is a string that is not
    the name of a member of [Object.prototype], the stats handler answers 200 with an object that
    has one property per category of the collection, whose value is the
    number of products of that category, and no other property; the
    state is left alone. *)
Theorem X20_stats_counts_by_category e rq st :
  plain_categories (products st) = true →
  ∃ stats,
    product_stats e rq st =
      (st, Responded {| status := 200; content := Json (VObj stats) |})
    ∧ ∀ k, stats !! k =
           if occurrences k (products st) =? 0 then None
           else Some (VNum (occurrences k (products st))).
Proof.
  intros Hp. eexists. split; [reflexivity|].
  intros k. by apply stats_counts, plain_categories_Forall.
Qed.

Lemma X20_witness :
  plain_categories (products initial) = true
  ∧ ∃ stats,
      product_stats env0 get_stats initial =
        (initial, Responded {| status := 200; content := Json (VObj stats) |})
      ∧ ∀ k, stats !! k =
             if occurrences k (products initial) =? 0 then None
             else Some (VNum (occurrences k (products initial))).
Proof.
  split; [reflexivity|].
  apply (X20_stats_counts_by_category env0 get_stats initial). reflexivity.
Defined.

Lemma stats_total_insert (m : gmap string value) (k : string) (n : Z) :
  stats_total (<[k := VNum n]> m)
  = n + stats_total m - count_of (default (VNum 0) (m !! k)).
Proof.
  unfold stats_total.
  assert (∀ (j1 j2 : string) (z1 z2 : value) (y : Z),
            count_of z1 + (count_of z2 + y) = count_of z2 + (count_of z1 + y))
    as Hcomm by (intros; lia).
  destruct (m !! k) as [v|] eqn:Hk; cbn [default from_option id count_of].
  - rewrite <- (insert_delete_eq m).
    rewrite (map_fold_insert_L _ _ _ _ (delete k m));
      [|auto|apply lookup_delete_eq].
    rewrite (map_fold_delete_L _ _ k v m); [|auto|done]. simpl. lia.
  - rewrite map_fold_insert_L; [|auto|done]. simpl. lia.
Qed.

Lemma stats_total_foldl ps :
  Forall (λ p, to_string (get p "category") ∉ object_prototype) ps →
  stats_total (foldl count_category ∅ ps) = Z.of_nat (length ps).
Proof.
  induction ps as [|p ps IH] using rev_ind; intros Hps; [done|].
  apply Forall_app in Hps as [Hps Hp]. rewrite Forall_singleton in Hp.
  rewrite foldl_app, length_app. cbn [foldl length].
  pose proof (stats_counts ps (to_string (get p "category")) Hps) as Hk.
  assert (0 ≤ occurrences (to_string (get p "category")) ps) as Hge
    by (unfold occurrences; lia).
  unfold count_category at 1.
  set (kp := to_string (get p "category")) in *.
  set (stats := foldl count_category ∅ ps) in *.
  assert (String.eqb kp "__proto__" = false) as ->.
  { apply String.eqb_neq. intros E. apply Hp. rewrite E.
    unfold object_prototype. set_solver. }
  rewrite Hk. destruct (occurrences kp ps =? 0) eqn:E0.
  - rewrite bool_decide_eq_false_2 by done.
    rewrite stats_total_insert, Hk, (IH Hps). simpl. lia.
  - unfold or_zero_plus_one, truthy. rewrite E0. cbn [negb].
    rewrite stats_total_insert, Hk, (IH Hps). simpl. lia.
Qed.

(** X21.  When every category of the collection is a string that is not
    the name of a member of [Object.prototype], the counts of the object the stats handler
    answers add up to the number of products of the collection. *)
Theorem X21_stats_counts_add_up e rq st :
  plain_categories (products st) = true →
  ∃ stats,
    product_stats e rq st =
      (st, Responded {| status := 200; content := Json (VObj stats) |})
    ∧ stats_total stats = Z.of_nat (length (products st)).
Proof.
  intros Hp. eexists. split; [reflexivity|].
  by apply stats_total_foldl, plain_categories_Forall.
Qed.

Lemma X21_witness :
  plain_categories (products initial) = true
  ∧ ∃ stats,
      product_stats env0 get_stats initial =
        (initial, Responded {| status := 200; content := Json (VObj stats) |})
      ∧ stats_total stats = Z.of_nat (length (products initial)).
Proof.
  split; [reflexivity|].
  apply (X21_stats_counts_add_up env0 get_stats initial). reflexivity.
Defined.

(** * Further edge behaviour *)

(** X22.  An update can move a product to another id: when the body
    carries a string [id] that no product has, the update of an existing
    product answers 200 with a record that has the new id, and a
    get-by-id for the new id then finds that record. *)
Theorem X22_update_can_change_the_id e rq st id id' :
  method rq = PUT →
  match_path product_path (path rq) = Some {["id" := id]} →
  absent id (products st) = false →
  body rq !! "id" = Some (VStr id') →
  absent id' (products st) = true →
  ∃ merged,
    (serve e rq st).2 = {| status := 200; content := Json (VObj merged) |}
    ∧ get merged "id" = VStr id'
    ∧ lookup_answer id' (products (serve e rq st).1)
      = {| status := 200; content := Json (VObj merged) |}.
Proof.
  intros Hm Hp Ha Hb Ha'.
  destruct (present_split rq id _ Ha) as (l1 & p & l2 & Hl & H1 & Hid & Hi & _).
  assert (get (spread p (body rq)) "id" = VStr id') as Hnew
    by (by rewrite get_spread, Hb).
  exists (spread p (body rq)).
  erewrite serve_PUT_product; [|done|done|].
  2:{ unfold update_product. rewrite Hi, Hl, lookup_middle', insert_middle.
      reflexivity. }
  cbn [fst snd products set_products]. split; [done|]. split; [done|].
  unfold lookup_answer. rewrite find_app; [done| |by apply strict_eq_string].
  rewrite Hl, absent_app in Ha'. by apply andb_prop in Ha' as [? _].
Qed.

Lemma X22_witness :
  method put_id_9_on_1 = PUT
  ∧ match_path product_path (path put_id_9_on_1) = Some {["id" := "1"]}
  ∧ absent "1" (products initial) = false
  ∧ body put_id_9_on_1 !! "id" = Some (VStr "9")
  ∧ absent "9" (products initial) = true
  ∧ ∃ merged,
      (serve env0 put_id_9_on_1 initial).2
      = {| status := 200; content := Json (VObj merged) |}
      ∧ get merged "id" = VStr "9"
      ∧ lookup_answer "9" (products (serve env0 put_id_9_on_1 initial).1)
        = {| status := 200; content := Json (VObj merged) |}.
Proof.
  split; [reflexivity|]. split; [reflexivity|]. split; [reflexivity|].
  split; [reflexivity|]. split; [reflexivity|].
  apply (X22_update_can_change_the_id env0 put_id_9_on_1 initial "1" "9");
    reflexivity.
Defined.

(** X23.  A negative [limit] is not refused: on the first page, with no
    [category] and no [search], a limit that reads as a number [l < 0]
    (not below -67108864) makes the filtering list handler answer all the
    products but the last [-l]. *)
Theorem X23_negative_limit e rq st (l : Z) :
  truthy (get (query rq) "category") = false →
  truthy (get (query rq) "search") = false →
  reads_as (get_default (query rq) "page" (VNum 1)) 1 = true →
  reads_as (get_default (query rq) "limit" (VNum 10)) l = true →
  l < 0 →
  list_products_advanced e rq st =
    (st, Responded
           (listing (Z.of_nat (length (products st))) (VNum 1) (VNum l)
              (take (Z.to_nat (Z.of_nat (length (products st)) + l))
                 (products st)))).
Proof.
  intros Hc Hs Hp%reads_as_parseInt Hl%reads_as_parseInt Hneg.
  rewrite list_products_advanced_steps. cbv zeta.
  unfold by_category, by_search, page_end, page_start.
  rewrite Hc, Hs, Hp, Hl. cbn [mbind option_bind number].
  do 3 f_equal. unfold slice. cbn [default from_option id].
  change ((1 - 1) * l) with (0 * l). rewrite Z.mul_0_l, Z.add_0_l.
  rewrite (proj2 (Z.ltb_lt l 0)) by done. cbn [Z.ltb Z.compare].
  rewrite Z.min_l by lia. rewrite Z.sub_0_r. cbn [Z.to_nat drop].
  f_equal. lia.
Qed.

Lemma X23_witness :
  truthy (get (query get_limit_minus_2) "category") = false
  ∧ truthy (get (query get_limit_minus_2) "search") = false
  ∧ reads_as (get_default (query get_limit_minus_2) "page" (VNum 1)) 1 = true
  ∧ reads_as (get_default (query get_limit_minus_2) "limit" (VNum 10)) (-2)
    = true
  ∧ list_products_advanced env0 get_limit_minus_2 initial =
      (initial, Responded (listing 3 (VNum 1) (VNum (-2)) [laptop])).
Proof.
  split; [reflexivity|]. split; [reflexivity|]. split; [reflexivity|].
  split; [reflexivity|].
  apply (X23_negative_limit env0 get_limit_minus_2 initial (-2));
    (reflexivity || lia).
Defined.

(** X24.  Page 0 is empty: when the filtering list handler answers a
    request whose page reads as 0 and whose limit reads as a number
    [l >= 0] (at most 67108864), [products] is empty. *)
Theorem X24_page_zero_is_empty e rq st st' r (l : Z) :
  list_products_advanced e rq st = (st', Responded r) →
  reads_as (get_default (query rq) "page" (VNum 1)) 0 = true →
  reads_as (get_default (query rq) "limit" (VNum 10)) l = true →
  0 ≤ l →
  ∃ total, r = listing total (VNum 0) (VNum l) [].
Proof.
  intros Hr Hp%reads_as_parseInt Hl%reads_as_parseInt Hl0.
  apply advanced_responded in Hr as (result & _ & ->).
  unfold page_end, page_start. rewrite Hp, Hl.
  cbn [mbind option_bind number]. eexists. f_equal.
  unfold slice. cbn [default from_option id].
  replace ((0 - 1) * l + l) with 0 by lia. cbn [Z.ltb Z.compare].
  rewrite (Z.min_l 0) by lia.
  match goal with
  | |- take (Z.to_nat ?n) _ = _ => replace (Z.to_nat n) with 0%nat; [done|]
  end.
  destruct ((0 - 1) * l <? 0) eqn:E; [lia|].
  apply Z.ltb_ge in E. lia.
Qed.

Lemma X24_witness :
  list_products_advanced env0 get_page_0 initial
  = (initial, Responded (listing 3 (VNum 0) (VNum 10) []))
  ∧ reads_as (get_default (query get_page_0) "page" (VNum 1)) 0 = true
  ∧ reads_as (get_default (query get_page_0) "limit" (VNum 10)) 10 = true
  ∧ ∃ total,
      listing 3 (VNum 0) (VNum 10) [] = listing total (VNum 0) (VNum 10) [].
Proof.
  split; [vm_compute; reflexivity|]. split; [reflexivity|].
  split; [reflexivity|].
  apply (X24_page_zero_is_empty env0 get_page_0 initial initial _ 10);
    [vm_compute; reflexivity|reflexivity|reflexivity|lia].
Defined.


